(** * utility_file_downloader: the resource reconciler of
      terraform-provider-utility, embedded and verified.

    The embedding follows the Go source of the resource: the three
    lifecycle entry points [Create], [Read], [Update] (and [Delete]) and
    the helper [downloadFile] they share.  The file system, the network
    and the Go runtime are explicit: every call that leaves the process
    is logged as an [Event], the files on disk are a finite map, and
    whatever the outside world decides (what the server answers, which
    system call fails) is read from an environment record. *)

From Stdlib Require Import ZArith List String Ascii Bool Lia.
From Stdlib.Strings Require Import Byte.
From stdpp Require Import base option list gmap strings.

Local Open Scope string_scope.
Local Open Scope list_scope.
Local Open Scope Z_scope.

(** ** Digests

    Modelled from the spec: [genFileChecksums] is called by [downloadFile]
    but its source file is not part of the sources at hand.  The spec (4.1)
    fixes it as the pair of lowercase hexadecimal SHA-1 and SHA-256 digests
    of a byte buffer; the module below implements both (FIPS 180-4) so
    that concrete runs of the reconciler can be evaluated.  The theorems on
    the reconciler never look inside it: they hold for any checksum
    function. *)
Module Digest.

Definition mask32 (x : Z) : Z := Z.land x 0xffffffff.
Definition add32 (x y : Z) : Z := mask32 (x + y).
Definition rotl32 (n x : Z) : Z :=
  mask32 (Z.lor (Z.shiftl x n) (Z.shiftr x (32 - n))).
Definition rotr32 (n x : Z) : Z := rotl32 (32 - n) x.

(** Big-endian encoding of [x] on [n] bytes. *)
Fixpoint be_bytes (n : nat) (x : Z) : list Z :=
  match n with
  | O => []
  | S k => Z.land (Z.shiftr x (8 * Z.of_nat k)) 0xff :: be_bytes k x
  end.

(** Message padding: a one bit, zeros up to 56 modulo 64, the bit length
    on eight bytes. *)
Definition pad (msg : list Z) : list Z :=
  let len := Z.of_nat (length msg) in
  msg ++ [0x80] ++ repeat 0 (Z.to_nat ((55 - len) mod 64))
      ++ be_bytes 8 (8 * len).

Fixpoint words32 (bs : list Z) : list Z :=
  match bs with
  | b0 :: b1 :: b2 :: b3 :: rest =>
      Z.lor (Z.shiftl b0 24)
        (Z.lor (Z.shiftl b1 16) (Z.lor (Z.shiftl b2 8) b3))
      :: words32 rest
  | _ => []
  end.

(** Cut a word list into blocks of sixteen words. *)
Fixpoint blocks (fuel : nat) (ws : list Z) : list (list Z) :=
  match fuel, ws with
  | S k, _ :: _ => firstn 16 ws :: blocks k (skipn 16 ws)
  | _, _ => []
  end.

Definition word (ws : list Z) (i : nat) : Z := nth i ws 0.

(** Extend a message schedule up to [n] more words with [next]. *)
Fixpoint extend (next : list Z -> Z) (n : nat) (ws : list Z) : list Z :=
  match n with
  | O => ws
  | S k => extend next k (ws ++ [next ws])
  end.

Definition hex_digit (d : Z) : ascii :=
  if d <? 10 then ascii_of_N (Z.to_N (48 + d))
  else ascii_of_N (Z.to_N (87 + d)).

Fixpoint hex_nibbles (n : nat) (x : Z) : string :=
  match n with
  | O => EmptyString
  | S k =>
      String (hex_digit (Z.land (Z.shiftr x (4 * Z.of_nat k)) 0xf))
             (hex_nibbles k x)
  end.

Definition hex_words (ws : list Z) : string :=
  fold_right (fun w acc => hex_nibbles 8 w +:+ acc) EmptyString ws.

Definition message_blocks (msg : list Byte.byte) : list (list Z) :=
  let ws := words32 (pad (map (fun b => Z.of_N (Byte.to_N b)) msg)) in
  blocks (length ws) ws.

(** *** SHA-1 *)

Definition sha1_next (ws : list Z) : Z :=
  let t := length ws in
  rotl32 1 (Z.lxor (Z.lxor (word ws (t - 3)) (word ws (t - 8)))
                   (Z.lxor (word ws (t - 14)) (word ws (t - 16)))).

Definition sha1_f (t : nat) (b c d : Z) : Z :=
  if (t <? 20)%nat then Z.lor (Z.land b c) (Z.land (Z.lxor b 0xffffffff) d)
  else if (t <? 40)%nat then Z.lxor (Z.lxor b c) d
  else if (t <? 60)%nat then
    Z.lor (Z.lor (Z.land b c) (Z.land b d)) (Z.land c d)
  else Z.lxor (Z.lxor b c) d.

Definition sha1_k (t : nat) : Z :=
  if (t <? 20)%nat then 0x5a827999
  else if (t <? 40)%nat then 0x6ed9eba1
  else if (t <? 60)%nat then 0x8f1bbcdc
  else 0xca62c1d6.

Definition sha1_round (w : list Z) (st : list Z) (t : nat) : list Z :=
  match st with
  | [a; b; c; d; e] =>
      [ add32 (add32 (add32 (rotl32 5 a) (sha1_f t b c d))
                     (add32 e (sha1_k t))) (word w t);
        a; rotl32 30 b; c; d ]
  | _ => st
  end.

Definition sha1_block (h : list Z) (blk : list Z) : list Z :=
  let w := extend sha1_next 64 blk in
  let st := fold_left (sha1_round w) (seq 0 80) h in
  map (fun p => add32 (fst p) (snd p)) (combine h st).

Definition sha1_init : list Z :=
  [0x67452301; 0xefcdab89; 0x98badcfe; 0x10325476; 0xc3d2e1f0].

Definition sha1 (msg : list Byte.byte) : list Z :=
  fold_left sha1_block (message_blocks msg) sha1_init.

(** *** SHA-256 *)

(** The constants are fractional parts of roots of the first primes:
    cube roots for the sixty-four round constants, square roots for the
    eight initial words, thirty-two bits each. *)
Fixpoint primes_from (fuel : nat) (k : Z) (n : nat) (found : list Z)
  : list Z :=
  match fuel, n with
  | S fuel', S n' =>
      if forallb (fun p => negb (k mod p =? 0)) found
      then primes_from fuel' (k + 1) n' (found ++ [k])
      else primes_from fuel' (k + 1) n found
  | _, _ => found
  end.

Definition first_primes (n : nat) : list Z := primes_from 400 2 n [].

(** The largest [r] below [2 ^ bits] with [r ^ 3 <= x], bit by bit. *)
Fixpoint cube_root (bits : nat) (x r : Z) : Z :=
  match bits with
  | O => r
  | S b =>
      let r' := r + 2 ^ Z.of_nat b in
      cube_root b x (if r' * r' * r' <=? x then r' else r)
  end.

Definition root3_fraction (p : Z) : Z :=
  mask32 (cube_root 40 (Z.shiftl p 96) 0).
Definition root2_fraction (p : Z) : Z := mask32 (Z.sqrt (Z.shiftl p 64)).

Definition sha256_K : list Z :=
  Eval vm_compute in map root3_fraction (first_primes 64).

Definition sha256_init : list Z :=
  Eval vm_compute in map root2_fraction (first_primes 8).

Definition sigma (r1 r2 s : Z) (x : Z) : Z :=
  Z.lxor (Z.lxor (rotr32 r1 x) (rotr32 r2 x)) (Z.shiftr x s).
Definition Sigma (r1 r2 r3 : Z) (x : Z) : Z :=
  Z.lxor (Z.lxor (rotr32 r1 x) (rotr32 r2 x)) (rotr32 r3 x).

Definition sha256_next (ws : list Z) : Z :=
  let t := length ws in
  add32 (add32 (sigma 17 19 10 (word ws (t - 2))) (word ws (t - 7)))
        (add32 (sigma 7 18 3 (word ws (t - 15))) (word ws (t - 16))).

Definition sha256_round (w : list Z) (st : list Z) (t : nat) : list Z :=
  match st with
  | [a; b; c; d; e; f; g; h] =>
      let ch := Z.lxor (Z.land e f) (Z.land (Z.lxor e 0xffffffff) g) in
      let maj := Z.lxor (Z.lxor (Z.land a b) (Z.land a c)) (Z.land b c) in
      let t1 :=
        add32 (add32 (add32 h (Sigma 6 11 25 e)) ch)
              (add32 (word sha256_K t) (word w t)) in
      let t2 := add32 (Sigma 2 13 22 a) maj in
      [ add32 t1 t2; a; b; c; add32 d t1; e; f; g ]
  | _ => st
  end.

Definition sha256_block (h : list Z) (blk : list Z) : list Z :=
  let w := extend sha256_next 48 blk in
  let st := fold_left (sha256_round w) (seq 0 64) h in
  map (fun p => add32 (fst p) (snd p)) (combine h st).

Definition sha256 (msg : list Byte.byte) : list Z :=
  fold_left sha256_block (message_blocks msg) sha256_init.

Definition sha1_hex (msg : list Byte.byte) : string := hex_words (sha1 msg).
Definition sha256_hex (msg : list Byte.byte) : string := hex_words (sha256 msg).

End Digest.

(** ** The framework's typed values

    [types.String], [types.Bool] and [types.Map] of the plugin framework
    carry a null / unknown / known state.  [ValueString] and [ValueBool]
    return the zero value unless the value is known; [IsNull] holds of the
    null state only. *)

Inductive tfString := StringNull | StringUnknown | StringValue (s : string).
Inductive tfBool := BoolNull | BoolUnknown | BoolValue (b : bool).

Definition IsNull (v : tfString) : bool :=
  match v with StringNull => true | _ => false end.

Definition ValueString (v : tfString) : string :=
  match v with StringValue s => s | _ => "" end.

Definition ValueBool (v : tfBool) : bool :=
  match v with BoolValue b => b | _ => false end.

(** An element of a framework map is an [attr.Value]; the Go code selects
    the strings with a type assertion. *)
Inductive attrValue := AttrString (s : tfString) | AttrBool (b : tfBool).

Inductive tfMap :=
| MapNull
| MapUnknown
| MapValue (elems : gmap string attrValue).

Definition Elements (m : tfMap) : gmap string attrValue :=
  match m with MapValue elems => elems | _ => ∅ end.

(** [fileResourceModel], field for field. *)
Record fileResourceModel := {
  URL : tfString;
  Filename : tfString;
  Method : tfString;
  Headers : tfMap;
  ForceDownload : tfBool;
  ID : tfString;
  Sha1 : tfString;
  Sha256 : tfString }.

(** The result of [genFileChecksums]. *)
Record fileChecksums := { sha1Hex : string; sha256Hex : string }.

(** The three assignments [m.ID = ...; m.Sha1 = ...; m.Sha256 = ...] that end
    Create, Read and Update. *)
Definition with_checksums (m : fileResourceModel) (c : fileChecksums)
  : fileResourceModel :=
  {| URL := URL m; Filename := Filename m; Method := Method m;
     Headers := Headers m; ForceDownload := ForceDownload m;
     ID := StringValue (sha1Hex c);
     Sha1 := StringValue (sha1Hex c);
     Sha256 := StringValue (sha256Hex c) |}.

(** *** Diagnostics *)

Inductive Severity := SeverityError | SeverityWarning.

Record Diagnostic := {
  severity : Severity;
  summary : string;
  detail : string }.

Definition is_error (d : Diagnostic) : bool :=
  match severity d with SeverityError => true | SeverityWarning => false end.

Definition HasError (ds : list Diagnostic) : bool := existsb is_error ds.

(** *** Requests and responses of the resource

    A plan or a state arrives encoded; [Get] decodes it into the model and
    reports what went wrong as diagnostics.  The response is the object the
    Go methods mutate through their [resp] pointer: the state to persist
    ([None] once [RemoveResource] has been called) and the diagnostics
    reported so far, in order. *)

Record tfsdkData := {
  Raw : fileResourceModel;
  GetDiags : list Diagnostic }.

Definition Get (d : tfsdkData) : list Diagnostic * fileResourceModel :=
  (GetDiags d, Raw d).

Record CreateRequest := { create_Plan : tfsdkData }.
Record ReadRequest := { read_State : tfsdkData }.
Record UpdateRequest := { update_Plan : tfsdkData; update_State : tfsdkData }.
Record DeleteRequest := { delete_State : tfsdkData }.

Record ResourceResponse := {
  State : option fileResourceModel;
  Diagnostics : list Diagnostic }.

(** The diagnostics are kept as the list of all reports.  (The framework
    leaves out a report equal to one already listed; the reports of the
    resource differ from anything decoding reports.) *)
Definition Diagnostics_Append (resp : ResourceResponse) (ds : list Diagnostic)
  : ResourceResponse :=
  {| State := State resp; Diagnostics := Diagnostics resp ++ ds |}.

Definition AddError (resp : ResourceResponse) (sum det : string)
  : ResourceResponse :=
  Diagnostics_Append resp
    [{| severity := SeverityError; summary := sum; detail := det |}].

Definition AddWarning (resp : ResourceResponse) (sum det : string)
  : ResourceResponse :=
  Diagnostics_Append resp
    [{| severity := SeverityWarning; summary := sum; detail := det |}].

(** [resp.State.Set(ctx, m)]: the model has the schema's shape, so the
    encoding reports nothing. *)
Definition State_Set (resp : ResourceResponse) (m : fileResourceModel)
  : list Diagnostic * ResourceResponse :=
  ([], {| State := Some m; Diagnostics := Diagnostics resp |}).

Definition State_RemoveResource (resp : ResourceResponse) : ResourceResponse :=
  {| State := None; Diagnostics := Diagnostics resp |}.

(** ** The outside world *)

(** Go's [(T, error)]: the error is its message. *)
Inductive result (A : Type) := Ok (a : A) | Err (msg : string).
Arguments Ok {A} a.
Arguments Err {A} msg.

Record Request := {
  req_Method : string;
  req_URL : string;
  req_Header : gmap string string }.

(** What [client.Do] hands back: status code, status line, and what
    reading the body to its end will give. *)
Record httpResponse := {
  StatusCode : Z;
  Status : string;
  Body : result (list Byte.byte) }.

(** Every call that reaches outside the function, with its outcome, in
    program order.  [EvNewRequest] is the first statement of
    [downloadFile]; [EvChecksums] logs the call of [genFileChecksums]. *)
Inductive Event :=
| EvStat (path : string) (notExist : bool)
| EvNewRequest (method url : string) (err : option string)
| EvDo (req : Request) (res : result httpResponse)
| EvMkdirAll (dir : string) (err : option string)
| EvCreate (path : string) (err : option string)
| EvReadAll (res : result (list Byte.byte))
| EvChecksums (bs : list Byte.byte)
| EvWrite (path : string) (bs : list Byte.byte) (err : option (nat * string))
| EvRemove (path : string) (err : option string).

(** What the Go runtime and the world outside decide.  The library
    functions whose code is not the repository's are fields as well. *)
Record Env := {
  (** [strings.ToUpper] on a string with a byte above 0x7f *)
  unicode_ToUpper : string -> string;
  (** [textproto.CanonicalMIMEHeaderKey], applied by [Header.Set] *)
  CanonicalMIMEHeaderKey : string -> string;
  filepath_Dir : string -> string;
  (** the error of [http.NewRequest method url], if any *)
  NewRequest_err : string -> string -> option string;
  (** the server's answer, or the transport error *)
  Do_result : Request -> result httpResponse;
  MkdirAll_err : string -> option string;
  Create_err : string -> option string;
  (** a failing [Write]: how many bytes went out, and the error *)
  Write_err : string -> list Byte.byte -> option (nat * string);
  Remove_err : string -> option string }.

(** *** Running a call

    A computation starts from the regular files on disk (by path) and
    gives back its result, the files it leaves, and the events it caused,
    in order.  A path is taken as it is spelled: the map does not know
    that two spellings can name one file. *)

Record Run (A : Type) := {
  returned : A;
  files_after : gmap string (list Byte.byte);
  events : list Event }.
Arguments returned {A} r.
Arguments files_after {A} r.
Arguments events {A} r.

Definition IO (A : Type) : Type := gmap string (list Byte.byte) -> Run A.

Definition ret {A} (a : A) : IO A :=
  fun fs => {| returned := a; files_after := fs; events := [] |}.

Definition bind {A B} (c : IO A) (k : A -> IO B) : IO B :=
  fun fs =>
    let r1 := c fs in
    let r2 := k (returned r1) (files_after r1) in
    {| returned := returned r2;
       files_after := files_after r2;
       events := events r1 ++ events r2 |}.

Notation "'do' x <- c ; k" := (bind c (fun x => k))
  (at level 10, x name, c at level 100, k at level 200, only parsing).

Definition emit (e : Event) : IO unit :=
  fun fs => {| returned := tt; files_after := fs; events := [e] |}.

Definition set_file (path : string) (bs : list Byte.byte) : IO unit :=
  fun fs => {| returned := tt; files_after := <[path := bs]> fs; events := [] |}.

Definition unlink (path : string) : IO unit :=
  fun fs => {| returned := tt; files_after := delete path fs; events := [] |}.

(** Only regular files are tracked, and a path is missing when no file is
    recorded for it.  Failures of [os.Stat] other than that are not
    modelled: the code treats them like a file that exists. *)
Definition file_missing (path : string) : IO bool :=
  fun fs => {| returned := bool_decide (fs !! path = None);
               files_after := fs; events := [] |}.

(** ** The program *)

Section Reconciler.

(** [genFileChecksums] is the repository's own; its file is not among
    the sources, so the reconciler is kept generic in it. *)
Variable genFileChecksums : list Byte.byte -> fileChecksums.
Variable E : Env.

(** *** Runtime calls *)

(** [_, err := os.Stat(path); os.IsNotExist(err)] *)
Definition os_Stat_IsNotExist (path : string) : IO bool :=
  do missing <- file_missing path;
  do _ <- emit (EvStat path missing);
  ret missing.

(** [strings.ToUpper]: the ASCII fast path is spelled out. *)
Definition upper_ascii (c : ascii) : ascii :=
  let n := N_of_ascii c in
  if ((97 <=? n) && (n <=? 122))%N then ascii_of_N (n - 32) else c.

Fixpoint isASCII (s : string) : bool :=
  match s with
  | EmptyString => true
  | String c rest => (N_of_ascii c <? 128)%N && isASCII rest
  end.

Fixpoint map_string (f : ascii -> ascii) (s : string) : string :=
  match s with
  | EmptyString => EmptyString
  | String c rest => String (f c) (map_string f rest)
  end.

Definition strings_ToUpper (s : string) : string :=
  if isASCII s then map_string upper_ascii s else unicode_ToUpper E s.

(** [http.NewRequest(method, url, nil)]: a request without headers,
    unless the method or the URL is refused. *)
Definition http_NewRequest (method url : string) : IO (result Request) :=
  let err := NewRequest_err E method url in
  do _ <- emit (EvNewRequest method url err);
  ret (match err with
       | Some err => Err err
       | None => Ok {| req_Method := method; req_URL := url;
                       req_Header := ∅ |}
       end).

(** [req.Header.Set(k, v)] *)
Definition Header_Set (k v : string) (req : Request) : Request :=
  {| req_Method := req_Method req;
     req_URL := req_URL req;
     req_Header := <[CanonicalMIMEHeaderKey E k := v]> (req_Header req) |}.

Definition client_Do (req : Request) : IO (result httpResponse) :=
  let res := Do_result E req in
  do _ <- emit (EvDo req res);
  ret res.

Definition os_MkdirAll (dir : string) : IO (option string) :=
  let err := MkdirAll_err E dir in
  do _ <- emit (EvMkdirAll dir err);
  ret err.

(** [os.Create]: the file is created, or truncated if it exists. *)
Definition os_Create (path : string) : IO (option string) :=
  let err := Create_err E path in
  do _ <- emit (EvCreate path err);
  match err with
  | Some _ => ret err
  | None => do _ <- set_file path []; ret None
  end.

Definition io_ReadAll (resp : httpResponse) : IO (result (list Byte.byte)) :=
  do _ <- emit (EvReadAll (Body resp));
  ret (Body resp).

(** [out.Write(bs)] on the file just created: all of [bs], or on a
    failure its first [n] bytes. *)
Definition out_Write (path : string) (bs : list Byte.byte)
  : IO (option string) :=
  let err := Write_err E path bs in
  do _ <- emit (EvWrite path bs err);
  match err with
  | Some (n, msg) => do _ <- set_file path (firstn n bs); ret (Some msg)
  | None => do _ <- set_file path bs; ret None
  end.

Definition os_Remove (path : string) : IO (option string) :=
  let err := Remove_err E path in
  do _ <- emit (EvRemove path err);
  match err with
  | Some _ => ret err
  | None => do _ <- unlink path; ret None
  end.

Definition call_genFileChecksums (bs : list Byte.byte) : IO fileChecksums :=
  do _ <- emit (EvChecksums bs);
  ret (genFileChecksums bs).

(** *** downloadFile *)

(** The pair of a checksums pointer and an error that [downloadFile]
    returns: a nil pointer with an error, or the checksums with the error
    of the final write. *)
Inductive downloaded :=
| NilErr (err : string)
| Checksums (c : fileChecksums) (err : option string).

(** The headers are set in the order of the map's fold (Go ranges over
    its map in no fixed order; the order matters only for keys that become
    equal once canonical).  The two deferred [Close] calls have no
    counterpart here. *)
Definition downloadFile (method url path : string)
    (headers : gmap string string) : IO downloaded :=
  do req <- http_NewRequest method url;
  match req with
  | Err err => ret (NilErr err)
  | Ok req =>
    let req := map_fold Header_Set req headers in
    do res <- client_Do req;
    match res with
    | Err err => ret (NilErr err)
    | Ok resp =>
      if negb (StatusCode resp =? 200) then
        ret (NilErr ("failed to download file: " +:+ Status resp))
      else
        let dir := filepath_Dir E path in
        do err <- os_MkdirAll dir;
        match err with
        | Some err => ret (NilErr err)
        | None =>
          do err <- os_Create path;
          match err with
          | Some err => ret (NilErr err)
          | None =>
            do body <- io_ReadAll resp;
            match body with
            | Err err => ret (NilErr err)
            | Ok bs =>
              do checksums <- call_genFileChecksums bs;
              do err <- out_Write path bs;
              ret (Checksums checksums err)
            end
          end
        end
    end
  end.

(** *** The lifecycle methods *)

(** The method defaults to GET; when the attribute is neither null nor
    empty it is replaced by its upper-cased value.  Create, Read and
    Update each spell this block out. *)
Definition resolve_method (m : tfString) : string :=
  if negb (IsNull m) && negb (String.eqb (ValueString m) "")
  then strings_ToUpper (ValueString m)
  else "GET".

(** The loop over [Headers.Elements()] that keeps the string values. *)
Definition flatten_headers (h : tfMap) : gmap string string :=
  omap (fun v => match v with
                 | AttrString s => Some (ValueString s)
                 | _ => None
                 end) (Elements h).

Definition Create (req : CreateRequest) (resp : ResourceResponse)
  : IO ResourceResponse :=
  let '(diags, plan) := Get (create_Plan req) in
  let resp := Diagnostics_Append resp diags in
  if HasError (Diagnostics resp) then ret resp else
  let method := resolve_method (Method plan) in
  let headers := flatten_headers (Headers plan) in
  do d <- downloadFile method (ValueString (URL plan))
                    (ValueString (Filename plan)) headers;
  match d with
  | NilErr err | Checksums _ (Some err) =>
      ret (AddError resp "Download Failed" err)
  | Checksums checksums None =>
      let plan := with_checksums plan checksums in
      let '(diags, resp) := State_Set resp plan in
      ret (Diagnostics_Append resp diags)
  end.

Definition Read (req : ReadRequest) (resp : ResourceResponse)
  : IO ResourceResponse :=
  let '(diags, state) := Get (read_State req) in
  let resp := Diagnostics_Append resp diags in
  if HasError (Diagnostics resp) then ret resp else
  let outputPath := ValueString (Filename state) in
  do notExist <- os_Stat_IsNotExist outputPath;
  if notExist then ret (State_RemoveResource resp) else
  let method := resolve_method (Method state) in
  let headers := flatten_headers (Headers state) in
  do d <- downloadFile method (ValueString (URL state))
                    (ValueString (Filename state)) headers;
  match d with
  | NilErr err | Checksums _ (Some err) =>
      ret (AddError resp "Download Failed" err)
  | Checksums checksums None =>
      if negb (String.eqb (sha1Hex checksums) (ValueString (ID state)))
      then ret (State_RemoveResource resp)
      else
        let state := with_checksums state checksums in
        let '(diags, resp) := State_Set resp state in
        ret (Diagnostics_Append resp diags)
  end.

Definition Update (req : UpdateRequest) (resp : ResourceResponse)
  : IO ResourceResponse :=
  let '(diags, plan) := Get (update_Plan req) in
  let resp := Diagnostics_Append resp diags in
  let '(diags, state) := Get (update_State req) in
  let resp := Diagnostics_Append resp diags in
  if HasError (Diagnostics resp) then ret resp else
  let method := resolve_method (Method plan) in
  let headers := flatten_headers (Headers plan) in
  if negb (ValueBool (ForceDownload state))
     && String.eqb (ValueString (URL plan)) (ValueString (URL state))
  then
    let resp := AddWarning resp "same file" (ValueString (URL plan)) in
    let '(_, resp) := State_Set resp state in
    ret resp
  else
  do d <- downloadFile method (ValueString (URL plan))
                    (ValueString (Filename plan)) headers;
  match d with
  | NilErr err | Checksums _ (Some err) =>
      ret (AddError resp "Download Failed" err)
  | Checksums checksums None =>
      let plan := with_checksums plan checksums in
      let '(diags, resp) := State_Set resp plan in
      ret (Diagnostics_Append resp diags)
  end.

(** [GetAttribute] into a Go string leaves it empty unless the attribute
    is known; neither its diagnostics nor the error of [os.Remove] is
    looked at. *)
Definition Delete (req : DeleteRequest) (resp : ResourceResponse)
  : IO ResourceResponse :=
  let filename := ValueString (Filename (Raw (delete_State req))) in
  do _ <- os_Remove filename;
  ret resp.

(** One call of Create, Read or Update. *)
Inductive Invocation :=
| CallCreate (req : CreateRequest)
| CallRead (req : ReadRequest)
| CallUpdate (req : UpdateRequest).

Definition invoke (c : Invocation) (resp : ResourceResponse)
  : IO ResourceResponse :=
  match c with
  | CallCreate req => Create req resp
  | CallRead req => Read req resp
  | CallUpdate req => Update req resp
  end.

End Reconciler.

(** ** A concrete world

    The checksum function of the spec, a quiet environment in which no
    system call fails, and a few requests, to run the reconciler on. *)

(** Modelled from the spec: [genFileChecksums], whose file is missing from
    the sources: the lowercase hexadecimal SHA-1 and SHA-256 of the
    buffer (spec 4.1). *)
Definition genFileChecksums_sha (bs : list Byte.byte) : fileChecksums :=
  {| sha1Hex := Digest.sha1_hex bs; sha256Hex := Digest.sha256_hex bs |}.

(** The part of a path before its last slash. *)
Fixpoint before_last_slash (s : string) : option string :=
  match s with
  | EmptyString => None
  | String c rest =>
      match before_last_slash rest with
      | Some d => Some (String c d)
      | None => if Ascii.eqb c "/" then Some EmptyString else None
      end
  end.

(** [filepath.Dir] on a path that is already clean. *)
Definition clean_Dir (p : string) : string :=
  match before_last_slash p with
  | None => "."
  | Some EmptyString => "/"
  | Some d => d
  end.

(** No call fails; [server] answers the requests. *)
Definition quiet (server : Request -> result httpResponse) : Env :=
  {| unicode_ToUpper := fun s => s;
     CanonicalMIMEHeaderKey := fun k => k;
     filepath_Dir := clean_Dir;
     NewRequest_err := fun _ _ => None;
     Do_result := server;
     MkdirAll_err := fun _ => None;
     Create_err := fun _ => None;
     Write_err := fun _ _ => None;
     Remove_err := fun _ => None |}.

Definition serve (code : Z) (status : string) (body : result (list Byte.byte))
  : Request -> result httpResponse :=
  fun _ => Ok {| StatusCode := code; Status := status; Body := body |}.

Definition serve_abc := serve 200 "200 OK" (Ok (list_byte_of_string "abc")).
Definition serve_xyz := serve 200 "200 OK" (Ok (list_byte_of_string "xyz")).

Definition a_bin (method : tfString) (force : tfBool) (id sha1 sha256 : tfString)
  : fileResourceModel :=
  {| URL := StringValue "http://h/a.bin";
     Filename := StringValue "/tmp/out/a.bin";
     Method := method;
     Headers := MapNull;
     ForceDownload := force;
     ID := id; Sha1 := sha1; Sha256 := sha256 |}.

Definition planned (method : tfString) (force : tfBool) : tfsdkData :=
  {| Raw := a_bin method force StringUnknown StringUnknown StringUnknown;
     GetDiags := [] |}.

Definition abc_sha1 := "a9993e364706816aba3e25717850c26c9cd0d89d".
Definition abc_sha256 :=
  "ba7816bf8f01cfea414140de5dae2223b00361a396177a9cb410ff61f20015ad".

(** The state a Create against [serve_abc] leaves. *)
Definition stored (method : tfString) (force : tfBool) : tfsdkData :=
  {| Raw := a_bin method force (StringValue abc_sha1) (StringValue abc_sha1)
                  (StringValue abc_sha256);
     GetDiags := [] |}.

Definition fresh : ResourceResponse := {| State := None; Diagnostics := [] |}.

Definition holding (m : fileResourceModel) : ResourceResponse :=
  {| State := Some m; Diagnostics := [] |}.

Definition abc_on_disk : gmap string (list Byte.byte) :=
  {[ "/tmp/out/a.bin" := list_byte_of_string "abc" ]}.

Definition serve_not_found := serve 404 "404 Not Found" (Ok []).
Definition serve_cut_short := serve 200 "200 OK" (Err "unexpected EOF").

Definition get_a_bin : Request :=
  {| req_Method := "GET"; req_URL := "http://h/a.bin"; req_Header := ∅ |}.

Definition create_a_bin (method : tfString) : CreateRequest :=
  {| create_Plan := planned method BoolNull |}.

Definition read_a_bin : ReadRequest :=
  {| read_State := stored (StringValue "GET") BoolNull |}.

(** An Update that keeps the URL, with force_download [plan_force] in the
    plan and [state_force] in the previous state. *)
Definition update_a_bin (plan_force state_force : tfBool) : UpdateRequest :=
  {| update_Plan := planned (StringValue "GET") plan_force;
     update_State := stored (StringValue "GET") state_force |}.

(** ** What the claims speak of *)

(** The model a call works from: the plan for Create and Update, the
    state for Read. *)
Definition wanted (c : Invocation) : fileResourceModel :=
  match c with
  | CallCreate req => Raw (create_Plan req)
  | CallRead req => Raw (read_State req)
  | CallUpdate req => Raw (update_Plan req)
  end.

Definition method_attr (c : Invocation) : tfString := Method (wanted c).

Definition destination (c : Invocation) : string :=
  ValueString (Filename (wanted c)).

(** What decoding the request reports. *)
Definition decoding (c : Invocation) : list Diagnostic :=
  match c with
  | CallCreate req => GetDiags (create_Plan req)
  | CallRead req => GetDiags (read_State req)
  | CallUpdate req => GetDiags (update_Plan req) ++ GetDiags (update_State req)
  end.

(** The request was decoded without an error. *)
Definition decodes (c : Invocation) (resp : ResourceResponse) : Prop :=
  HasError (Diagnostics resp ++ decoding c) = false.

(** The requests a trace sent. *)
Definition requests (tr : list Event) : list Request :=
  omap (fun e => match e with EvDo rq _ => Some rq | _ => None end) tr.

(** The method as the spec words it: GET for a null or empty attribute,
    the attribute's value otherwise. *)
Definition method_as_worded (m : tfString) : string :=
  if IsNull m || String.eqb (ValueString m) "" then "GET" else ValueString m.

(** The method as the code resolves it: the value goes through
    [strings.ToUpper]. *)
Definition method_upper (E : Env) (m : tfString) : string :=
  if IsNull m || String.eqb (ValueString m) "" then "GET"
  else strings_ToUpper E (ValueString m).

(** Every request of a call carries the method [expected] computes from
    the method attribute. *)
Definition sends_method (gen : list Byte.byte -> fileChecksums) (E : Env)
    (expected : tfString -> string) (c : Invocation)
    (resp : ResourceResponse) (fs : gmap string (list Byte.byte)) : Prop :=
  Forall (fun rq => req_Method rq = expected (method_attr c))
         (requests (events (invoke gen E c resp fs))).

(** The request [downloadFile] builds. *)
Definition request_for (E : Env) (method url : string)
    (headers : gmap string string) : Request :=
  map_fold (Header_Set E)
    {| req_Method := method; req_URL := url; req_Header := ∅ |} headers.

(** A fetch that succeeds: the request is accepted, the server answers
    200, the body [bs] is read to its end, and neither the directory, nor
    the file, nor the write fails. *)
Definition fetch_succeeds (E : Env) (method url path : string)
    (headers : gmap string string) (bs : list Byte.byte) : Prop :=
  NewRequest_err E method url = None
  /\ (exists resp, Do_result E (request_for E method url headers) = Ok resp
                  /\ StatusCode resp = 200 /\ Body resp = Ok bs)
  /\ MkdirAll_err E (filepath_Dir E path) = None
  /\ Create_err E path = None
  /\ Write_err E path bs = None.

(** The re-fetch of a Read for the state [m]. *)
Definition refetch_succeeds (E : Env) (m : fileResourceModel)
    (bs : list Byte.byte) : Prop :=
  fetch_succeeds E (resolve_method E (Method m)) (ValueString (URL m))
    (ValueString (Filename m)) (flatten_headers (Headers m)) bs.

(** *** Order of events *)

Fixpoint index_where (p : Event -> bool) (tr : list Event) : option nat :=
  match tr with
  | [] => None
  | e :: rest => if p e then Some O else S <$> index_where p rest
  end.

(** Both kinds of event occur, the first [p] before the first [q]. *)
Definition precedes (p q : Event -> bool) (tr : list Event) : bool :=
  match index_where p tr, index_where q tr with
  | Some i, Some j => (i <? j)%nat
  | _, _ => false
  end.

Definition is_truncate (e : Event) : bool :=
  match e with EvCreate _ _ => true | _ => false end.
Definition is_body_read (e : Event) : bool :=
  match e with EvReadAll _ => true | _ => false end.
Definition is_checksums (e : Event) : bool :=
  match e with EvChecksums _ => true | _ => false end.
Definition is_write (e : Event) : bool :=
  match e with EvWrite _ _ _ => true | _ => false end.

(** The body was buffered. *)
Definition fetches (tr : list Event) : bool :=
  existsb (fun e => match e with EvReadAll (Ok _) => true | _ => false end) tr.

(** The order the spec words: buffer, then write, then hash. *)
Definition order_as_worded (tr : list Event) : bool :=
  precedes is_body_read is_write tr && precedes is_write is_checksums tr.

(** The order of the code: truncate, buffer, hash, write. *)
Definition order_of_code (tr : list Event) : bool :=
  precedes is_truncate is_body_read tr
  && precedes is_body_read is_checksums tr
  && precedes is_checksums is_write tr.

(** No event touches a file. *)
Definition touches_no_file (tr : list Event) : Prop :=
  Forall (fun e => is_truncate e = false /\ is_write e = false) tr.

(** *** The lifecycle of one resource

    The state the framework tracks for a resource: nothing at first; what
    Create leaves; then what each Read or Update leaves when called with
    the tracked state (the response starts out holding it).  The world,
    the files and the plans are arbitrary at every step. *)
Inductive tracked (gen : list Byte.byte -> fileChecksums)
  : option fileResourceModel -> Prop :=
| tracked_nothing : tracked gen None
| tracked_Create E req fs :
    tracked gen None ->
    tracked gen (State (returned (Create gen E req fresh fs)))
| tracked_Read E req fs m :
    tracked gen (Some m) ->
    Raw (read_State req) = m ->
    tracked gen (State (returned (Read gen E req (holding m) fs)))
| tracked_Update E req fs m :
    tracked gen (Some m) ->
    Raw (update_State req) = m ->
    tracked gen (State (returned (Update gen E req (holding m) fs))).

(** ** The ways out of a call

    [downloadFile] has seven return statements; [download_exit] lists, for
    each, the condition under which it is taken and the whole outcome.
    [invoke_exit] does the same for the lifecycle methods. *)

Section Exits.

Variable gen : list Byte.byte -> fileChecksums.
Variable E : Env.

Definition write_error (path : string) (bs : list Byte.byte)
  : option string :=
  match Write_err E path bs with Some (_, msg) => Some msg | None => None end.

Definition written (path : string) (bs : list Byte.byte)
  : list Byte.byte :=
  match Write_err E path bs with Some (n, _) => firstn n bs | None => bs end.

Inductive download_exit (method url path : string)
    (headers : gmap string string) (fs : gmap string (list Byte.byte))
  : Run downloaded -> Prop :=
| exit_request err :
    NewRequest_err E method url = Some err ->
    download_exit method url path headers fs
      {| returned := NilErr err; files_after := fs;
         events := [EvNewRequest method url (Some err)] |}
| exit_transport err :
    NewRequest_err E method url = None ->
    Do_result E (request_for E method url headers) = Err err ->
    download_exit method url path headers fs
      {| returned := NilErr err; files_after := fs;
         events := [EvNewRequest method url None;
                    EvDo (request_for E method url headers) (Err err)] |}
| exit_status resp :
    NewRequest_err E method url = None ->
    Do_result E (request_for E method url headers) = Ok resp ->
    StatusCode resp <> 200 ->
    download_exit method url path headers fs
      {| returned := NilErr ("failed to download file: " +:+ Status resp);
         files_after := fs;
         events := [EvNewRequest method url None;
                    EvDo (request_for E method url headers) (Ok resp)] |}
| exit_mkdir resp err :
    NewRequest_err E method url = None ->
    Do_result E (request_for E method url headers) = Ok resp ->
    StatusCode resp = 200 ->
    MkdirAll_err E (filepath_Dir E path) = Some err ->
    download_exit method url path headers fs
      {| returned := NilErr err; files_after := fs;
         events := [EvNewRequest method url None;
                    EvDo (request_for E method url headers) (Ok resp);
                    EvMkdirAll (filepath_Dir E path) (Some err)] |}
| exit_create resp err :
    NewRequest_err E method url = None ->
    Do_result E (request_for E method url headers) = Ok resp ->
    StatusCode resp = 200 ->
    MkdirAll_err E (filepath_Dir E path) = None ->
    Create_err E path = Some err ->
    download_exit method url path headers fs
      {| returned := NilErr err; files_after := fs;
         events := [EvNewRequest method url None;
                    EvDo (request_for E method url headers) (Ok resp);
                    EvMkdirAll (filepath_Dir E path) None;
                    EvCreate path (Some err)] |}
| exit_body resp err :
    NewRequest_err E method url = None ->
    Do_result E (request_for E method url headers) = Ok resp ->
    StatusCode resp = 200 ->
    MkdirAll_err E (filepath_Dir E path) = None ->
    Create_err E path = None ->
    Body resp = Err err ->
    download_exit method url path headers fs
      {| returned := NilErr err; files_after := <[path := []]> fs;
         events := [EvNewRequest method url None;
                    EvDo (request_for E method url headers) (Ok resp);
                    EvMkdirAll (filepath_Dir E path) None;
                    EvCreate path None;
                    EvReadAll (Err err)] |}
| exit_written resp bs :
    NewRequest_err E method url = None ->
    Do_result E (request_for E method url headers) = Ok resp ->
    StatusCode resp = 200 ->
    MkdirAll_err E (filepath_Dir E path) = None ->
    Create_err E path = None ->
    Body resp = Ok bs ->
    download_exit method url path headers fs
      {| returned := Checksums (gen bs) (write_error path bs);
         files_after := <[path := written path bs]> (<[path := []]> fs);
         events := [EvNewRequest method url None;
                    EvDo (request_for E method url headers) (Ok resp);
                    EvMkdirAll (filepath_Dir E path) None;
                    EvCreate path None;
                    EvReadAll (Ok bs);
                    EvChecksums bs;
                    EvWrite path bs (Write_err E path bs)] |}.

(** The download a call makes, if it gets that far. *)
Definition download_of (c : Invocation)
    (fs : gmap string (list Byte.byte)) : Run downloaded :=
  downloadFile gen E (resolve_method E (Method (wanted c)))
    (ValueString (URL (wanted c))) (ValueString (Filename (wanted c)))
    (flatten_headers (Headers (wanted c))) fs.

(** Update's test for leaving the file alone. *)
Definition same_file (req : UpdateRequest) : bool :=
  negb (ValueBool (ForceDownload (Raw (update_State req))))
  && String.eqb (ValueString (URL (Raw (update_Plan req))))
                (ValueString (URL (Raw (update_State req)))).

(** A call that reaches [downloadFile]. *)
Definition downloads (c : Invocation) (resp : ResourceResponse)
    (fs : gmap string (list Byte.byte)) : Prop :=
  decodes c resp
  /\ match c with
     | CallCreate _ => True
     | CallRead _ => fs !! destination c <> None
     | CallUpdate req => same_file req = false
     end.

(** The events before the download: the [os.Stat] of Read. *)
Definition stat_events (c : Invocation) : list Event :=
  match c with
  | CallRead _ => [EvStat (destination c) false]
  | _ => []
  end.

(** What a call makes of the result of its download. *)
Definition conclude (c : Invocation) (resp : ResourceResponse)
    (d : downloaded) : ResourceResponse :=
  match d with
  | NilErr err | Checksums _ (Some err) => AddError resp "Download Failed" err
  | Checksums cs None =>
      match c with
      | CallRead _ =>
          if negb (String.eqb (sha1Hex cs) (ValueString (ID (wanted c))))
          then State_RemoveResource resp
          else {| State := Some (with_checksums (wanted c) cs);
                  Diagnostics := Diagnostics resp |}
      | _ => {| State := Some (with_checksums (wanted c) cs);
                Diagnostics := Diagnostics resp |}
      end
  end.

Inductive invoke_exit (c : Invocation) (resp : ResourceResponse)
    (fs : gmap string (list Byte.byte)) : Run ResourceResponse -> Prop :=
| exit_decode :
    HasError (Diagnostics resp ++ decoding c) = true ->
    invoke_exit c resp fs
      {| returned := Diagnostics_Append resp (decoding c);
         files_after := fs; events := [] |}
| exit_missing req :
    c = CallRead req ->
    decodes c resp ->
    fs !! destination c = None ->
    invoke_exit c resp fs
      {| returned :=
           State_RemoveResource (Diagnostics_Append resp (decoding c));
         files_after := fs;
         events := [EvStat (destination c) true] |}
| exit_same_file req :
    c = CallUpdate req ->
    decodes c resp ->
    same_file req = true ->
    invoke_exit c resp fs
      {| returned :=
           {| State := Some (Raw (update_State req));
              Diagnostics :=
                (Diagnostics resp ++ decoding c)
                ++ [{| severity := SeverityWarning;
                       summary := "same file";
                       detail := ValueString (URL (Raw (update_Plan req))) |}]
           |};
         files_after := fs; events := [] |}
| exit_download :
    downloads c resp fs ->
    invoke_exit c resp fs
      {| returned :=
           conclude c (Diagnostics_Append resp (decoding c))
             (returned (download_of c fs));
         files_after := files_after (download_of c fs);
         events := stat_events c ++ events (download_of c fs) |}.

End Exits.

(** ** More vocabulary: failures, counts, the schema *)

(** The error message of a call that failed, for the calls whose error
    [downloadFile] returns. *)
Definition failure (e : Event) : option string :=
  match e with
  | EvNewRequest _ _ (Some msg) => Some msg
  | EvDo _ (Err msg) => Some msg
  | EvMkdirAll _ (Some msg) => Some msg
  | EvCreate _ (Some msg) => Some msg
  | EvReadAll (Err msg) => Some msg
  | EvWrite _ _ (Some (_, msg)) => Some msg
  | _ => None
  end.

Definition is_request (e : Event) : bool :=
  match e with EvDo _ _ => true | _ => false end.

(** How many events of a kind a trace has. *)
Fixpoint count (p : Event -> bool) (tr : list Event) : nat :=
  match tr with
  | [] => O
  | e :: rest => if p e then S (count p rest) else count p rest
  end.

(** *** Metadata and Schema

    The attributes as [Schema] declares them.  [OneOf] is the validator
    [stringvalidator.OneOf], [Default] the [stringdefault.StaticString]. *)

Definition TypeName : string := "utility_file_downloader".

Inductive attrKind := StringAttribute | MapAttribute | BoolAttribute.

Inductive elemType := StringType.

Record Attribute := {
  kind : attrKind;
  Description : string;
  Required : bool;
  Optional : bool;
  Computed : bool;
  Sensitive : bool;
  ElementType : option elemType;
  OneOf : option (list string);
  Default : option string }.

(** An attribute with neither element type, validator, default nor
    sensitivity. *)
Definition plain (k : attrKind) (description : string)
    (required optional computed : bool) : Attribute :=
  {| kind := k; Description := description; Required := required;
     Optional := optional; Computed := computed; Sensitive := false;
     ElementType := None; OneOf := None; Default := None |}.

(** The method attribute as the schema has it. *)
Definition method_attribute : Attribute :=
  {| kind := StringAttribute;
     Description := "HTTP method to use for the request (default: GET). Only 'GET' and 'POST' are allowed.";
     Required := false; Optional := true; Computed := true;
     Sensitive := false; ElementType := None;
     OneOf := Some ["GET"; "POST"]; Default := Some "GET" |}.

Definition Schema_Description : string :=
  "Resource to download a remote file via HTTP(S) using GET or POST, optionally with custom headers.".

Definition Schema : list (string * Attribute) :=
  [ ("url",
      plain StringAttribute
        "The full HTTP or HTTPS URL to download the file from."
        true false false);
    ("filename",
      plain StringAttribute
        "Local filename where the downloaded file will be saved."
        true false false);
    ("method", method_attribute);
    ("headers",
      {| kind := MapAttribute;
         Description := "Map of custom HTTP headers to include in the request. The map key is the header name, and the value is the header content.";
         Required := false; Optional := true; Computed := false;
         Sensitive := true; ElementType := Some StringType;
         OneOf := None; Default := None |});
    ("force_download",
      plain BoolAttribute
        "Force download even if the file url has not changed."
        false true false);
    ("id",
      plain StringAttribute
        "The hexadecimal encoding of the SHA1 checksum of the downloaded file content."
        false false true);
    ("sha1",
      plain StringAttribute "SHA1 checksum of file content."
        false false true);
    ("sha256",
      plain StringAttribute "SHA256 checksum of file content."
        false false true) ].

Definition attribute (name : string) : option Attribute :=
  snd <$> List.find (fun na => String.eqb (fst na) name) Schema.

(** The validator looks at known values only, and compares them as they
    are. *)
Definition admits (a : Attribute) (v : tfString) : bool :=
  match OneOf a, v with
  | Some allowed, StringValue s => existsb (String.eqb s) allowed
  | _, _ => true
  end.

(** The planned value of an attribute: the default stands in for a null
    configuration. *)
Definition planned_value (a : Attribute) (config : tfString) : tfString :=
  match config, Default a with
  | StringNull, Some d => StringValue d
  | _, _ => config
  end.

(** *** More of the concrete world *)

Definition offline : Env :=
  quiet (fun _ => Err "dial tcp: connection refused").

(** The disk takes one byte, then is full. *)
Definition disk_full : Env :=
  {| unicode_ToUpper := fun s => s;
     CanonicalMIMEHeaderKey := fun k => k;
     filepath_Dir := clean_Dir;
     NewRequest_err := fun _ _ => None;
     Do_result := serve_abc;
     MkdirAll_err := fun _ => None;
     Create_err := fun _ => None;
     Write_err := fun _ _ => Some (1%nat, "no space left on device");
     Remove_err := fun _ => None |}.

Definition delete_a_bin : DeleteRequest :=
  {| delete_State := stored (StringValue "GET") BoolNull |}.

(** A plan with one string header and one element that is no string. *)
Definition token_headers : tfMap :=
  MapValue {[ "X-Token" := AttrString (StringValue "t0ken");
              "X-Flag" := AttrBool (BoolValue true) ]}.

Definition create_with_token : CreateRequest :=
  {| create_Plan :=
       {| Raw := {| URL := StringValue "http://h/a.bin";
                    Filename := StringValue "/tmp/out/a.bin";
                    Method := StringValue "GET";
                    Headers := token_headers;
                    ForceDownload := BoolNull;
                    ID := StringUnknown; Sha1 := StringUnknown;
                    Sha256 := StringUnknown |};
          GetDiags := [] |} |}.

Definition token_request : Request :=
  {| req_Method := "GET"; req_URL := "http://h/a.bin";
     req_Header := {[ "X-Token" := "t0ken" ]} |}.

Definition abc_answer : httpResponse :=
  {| StatusCode := 200; Status := "200 OK";
     Body := Ok (list_byte_of_string "abc") |}.

(** An Update that moves the download to another file. *)
Definition update_moved : UpdateRequest :=
  {| update_Plan :=
       {| Raw := {| URL := StringValue "http://h/b.bin";
                    Filename := StringValue "/tmp/out/b.bin";
                    Method := StringValue "GET";
                    Headers := MapNull;
                    ForceDownload := BoolNull;
                    ID := StringUnknown; Sha1 := StringUnknown;
                    Sha256 := StringUnknown |};
          GetDiags := [] |};
     update_State := stored (StringValue "GET") BoolNull |}.

(** Take the program apart, and nothing else: [run_download] down to the
    runtime calls, [run_method] a lifecycle method down to its call of
    [downloadFile]. *)
Ltac run_download :=
  cbv beta iota zeta delta
    [downloadFile http_NewRequest client_Do os_MkdirAll os_Create io_ReadAll
     out_Write call_genFileChecksums set_file emit bind ret
     returned files_after events app].

Ltac run_method :=
  cbv beta iota zeta delta
    [invoke Create Read Update os_Stat_IsNotExist file_missing emit bind ret
     Get State_Set AddError AddWarning State_RemoveResource
     Diagnostics_Append returned files_after events Raw GetDiags
     Diagnostics State create_Plan read_State update_Plan update_State
     download_of wanted decoding decodes destination stat_events conclude
     same_file].

(** Find an event in an explicit trace: one goal per position where it
    can stand. *)
Ltac in_events H :=
  cbn [In app] in H;
  repeat (destruct H as [H|H]; [ try discriminate H | ]);
  try contradiction H.

(** * Properties *)

(** ** The digests on the standard test vectors *)

Example sha1_hex_empty :
  Digest.sha1_hex [] = "da39a3ee5e6b4b0d3255bfef95601890afd80709".
Proof. vm_compute. reflexivity. Qed.

Example sha1_hex_abc :
  Digest.sha1_hex (list_byte_of_string "abc")
  = "a9993e364706816aba3e25717850c26c9cd0d89d".
Proof. vm_compute. reflexivity. Qed.

Example sha256_hex_empty :
  Digest.sha256_hex []
  = "e3b0c44298fc1c149afbf4c8996fb92427ae41e4649b934ca495991b7852b855".
Proof. vm_compute. reflexivity. Qed.

Example sha256_hex_abc :
  Digest.sha256_hex (list_byte_of_string "abc")
  = "ba7816bf8f01cfea414140de5dae2223b00361a396177a9cb410ff61f20015ad".
Proof. vm_compute. reflexivity. Qed.

(** The end-to-end scenario of the spec (8): Create against a server that
    answers 200 with body abc. *)
Example Create_abc :
  let r := Create genFileChecksums_sha (quiet serve_abc)
             {| create_Plan := planned (StringValue "") BoolNull |} fresh ∅ in
  returned r = {| State := Some (Raw (stored (StringValue "") BoolNull));
                  Diagnostics := [] |}
  /\ files_after r !! "/tmp/out/a.bin" = Some (list_byte_of_string "abc")
  /\ events r =
       [ EvNewRequest "GET" "http://h/a.bin" None;
         EvDo {| req_Method := "GET"; req_URL := "http://h/a.bin";
                 req_Header := ∅ |}
              (Ok {| StatusCode := 200; Status := "200 OK";
                     Body := Ok (list_byte_of_string "abc") |});
         EvMkdirAll "/tmp/out" None;
         EvCreate "/tmp/out/a.bin" None;
         EvReadAll (Ok (list_byte_of_string "abc"));
         EvChecksums (list_byte_of_string "abc");
         EvWrite "/tmp/out/a.bin" (list_byte_of_string "abc") None ].
Proof. vm_compute. repeat split; reflexivity. Qed.

(** ** The reconciler *)

Section Properties.

Variable gen : list Byte.byte -> fileChecksums.
Variable E : Env.

Lemma resolve_method_upper m : resolve_method E m = method_upper E m.
Proof.
  unfold resolve_method, method_upper.
  destruct (IsNull m), (String.eqb (ValueString m) ""); reflexivity.
Qed.

(** [downloadFile] leaves through one of its seven exits. *)
Lemma downloadFile_exit method url path headers fs :
  download_exit gen E method url path headers fs
    (downloadFile gen E method url path headers fs).
Proof.
  run_download.
  destruct (NewRequest_err E method url) as [err|] eqn:Hreq;
    [ now apply exit_request | ].
  fold (request_for E method url headers). cbv beta iota.
  destruct (Do_result E (request_for E method url headers))
    as [resp|err] eqn:Hdo; [ | now apply exit_transport ].
  destruct (StatusCode resp =? 200) eqn:Hcode; cbn [negb];
    [ apply Z.eqb_eq in Hcode | apply Z.eqb_neq in Hcode;
                                now apply exit_status ].
  destruct (MkdirAll_err E (filepath_Dir E path)) as [err|] eqn:Hdir;
    [ now apply exit_mkdir | ].
  destruct (Create_err E path) as [err|] eqn:Hcreate;
    [ now apply exit_create | ].
  destruct (Body resp) as [bs|err] eqn:Hbody;
    [ | now apply exit_body ].
  pose proof (exit_written gen E method url path headers fs resp bs
                Hreq Hdo Hcode Hdir Hcreate Hbody) as Hexit.
  unfold write_error, written in Hexit.
  destruct (Write_err E path bs) as [[n msg]|]; exact Hexit.
Qed.

(** Create, Read and Update leave through one of four exits. *)
Lemma invoke_exits c resp fs :
  invoke_exit gen E c resp fs (invoke gen E c resp fs).
Proof.
  destruct c as [req|req|req].
  - destruct (HasError (Diagnostics resp ++ decoding (CallCreate req)))
      eqn:Hdec.
    + pose proof (exit_decode gen E _ _ fs Hdec) as Hexit.
      revert Hexit Hdec. run_method. intros Hexit ->. exact Hexit.
    + pose proof (exit_download gen E (CallCreate req) resp fs
                    (conj Hdec I)) as Hexit.
      revert Hexit Hdec. run_method. intros Hexit ->.
      destruct (downloadFile _ _ _ _ _ _ _) as [[err|cs [err|]] fs' ev];
        cbn [app] in *; rewrite ?app_nil_r; exact Hexit.
  - destruct (HasError (Diagnostics resp ++ decoding (CallRead req)))
      eqn:Hdec.
    + pose proof (exit_decode gen E _ _ fs Hdec) as Hexit.
      revert Hexit Hdec. run_method. intros Hexit ->. exact Hexit.
    + destruct (fs !! destination (CallRead req)) as [old|] eqn:Hfile.
      * assert (Hdl : downloads (CallRead req) resp fs).
        { split; [exact Hdec | congruence]. }
        pose proof (exit_download gen E _ resp fs Hdl) as Hexit.
        revert Hexit Hdec Hfile. run_method. intros Hexit -> ->.
        rewrite bool_decide_eq_false_2 by discriminate.
        destruct (downloadFile _ _ _ _ _ _ _) as [[err|cs [err|]] fs' ev];
          cbv beta iota; cbn [app] in *; rewrite ?app_nil_r;
          try exact Hexit.
        destruct (negb _); cbn [app]; rewrite ?app_nil_r; exact Hexit.
      * pose proof (exit_missing gen E _ resp fs req eq_refl Hdec Hfile)
          as Hexit.
        revert Hexit Hdec Hfile. run_method. intros Hexit -> ->.
        rewrite bool_decide_eq_true_2 by reflexivity.
        cbn [app]. exact Hexit.
  - destruct (HasError (Diagnostics resp ++ decoding (CallUpdate req)))
      eqn:Hdec.
    + pose proof (exit_decode gen E _ _ fs Hdec) as Hexit.
      revert Hexit Hdec. run_method. rewrite app_assoc.
      intros Hexit ->. exact Hexit.
    + destruct (same_file req) eqn:Hsame.
      * pose proof (exit_same_file gen E _ resp fs req eq_refl Hdec Hsame)
          as Hexit.
        revert Hexit Hdec Hsame. run_method. rewrite !app_assoc.
        intros Hexit -> ->. exact Hexit.
      * pose proof (exit_download gen E (CallUpdate req) resp fs
                      (conj Hdec Hsame)) as Hexit.
        revert Hexit Hdec Hsame. run_method. rewrite !app_assoc.
        intros Hexit -> ->.
        destruct (downloadFile _ _ _ _ _ _ _) as [[err|cs [err|]] fs' ev];
          cbn [app] in *; rewrite ?app_nil_r; exact Hexit.
Qed.

(** Setting headers changes neither the method nor the URL. *)
Lemma request_for_line method url headers :
  req_Method (request_for E method url headers) = method
  /\ req_URL (request_for E method url headers) = url.
Proof.
  unfold request_for.
  apply (map_fold_weak_ind
           (fun (rq : Request) (_ : gmap string string) =>
              req_Method rq = method /\ req_URL rq = url)).
  - split; reflexivity.
  - intros k v m rq _ IH. exact IH.
Qed.

Lemma download_of_exit c fs :
  download_exit gen E (resolve_method E (Method (wanted c)))
    (ValueString (URL (wanted c))) (destination c)
    (flatten_headers (Headers (wanted c))) fs (download_of gen E c fs).
Proof. apply downloadFile_exit. Qed.

(** A fetch that succeeds runs [downloadFile] to its last line. *)
Lemma downloadFile_succeeds method url path headers bs fs :
  fetch_succeeds E method url path headers bs ->
  exists resp,
    StatusCode resp = 200 /\ Body resp = Ok bs
    /\ downloadFile gen E method url path headers fs
       = {| returned := Checksums (gen bs) None;
            files_after := <[path := bs]> fs;
            events := [EvNewRequest method url None;
                       EvDo (request_for E method url headers) (Ok resp);
                       EvMkdirAll (filepath_Dir E path) None;
                       EvCreate path None;
                       EvReadAll (Ok bs);
                       EvChecksums bs;
                       EvWrite path bs None] |}.
Proof.
  intros (Hreq & (resp & Hdo & Hcode & Hbody) & Hdir & Hcreate & Hwrite).
  exists resp. split; [ exact Hcode | split; [ exact Hbody | ] ].
  destruct (downloadFile_exit method url path headers fs); try congruence.
  assert (resp0 = resp) as -> by congruence.
  assert (bs0 = bs) as -> by congruence.
  unfold write_error, written. rewrite Hwrite, insert_insert_eq.
  reflexivity.
Qed.

Lemma stat_events_are_stats c e :
  In e (stat_events c) -> exists path b, e = EvStat path b.
Proof.
  destruct c; cbn; intros H; try contradiction.
  destruct H as [<-|[]]. eauto.
Qed.

Lemma stat_events_touch_no_file c : touches_no_file (stat_events c).
Proof. destruct c; repeat constructor. Qed.

(** An event of a downloading call that is not the [os.Stat] of Read is
    an event of its download. *)
Lemma In_download_events c e l :
  (forall path b, e <> EvStat path b) ->
  In e (stat_events c ++ l) -> In e l.
Proof.
  intros Hne Hin. apply in_app_or in Hin as [Hin|Hin]; [ | exact Hin ].
  apply stat_events_are_stats in Hin as (path & b & ->).
  now destruct (Hne path b).
Qed.

(** *** Update with an unchanged URL *)

(** C1: an Update whose previous state has force_download false and whose
    planned url is the state's url appends exactly one warning, of summary
    same file, persists the previous state as it is, and causes no event
    at all: [downloadFile] is not entered, nothing is fetched, no file is
    written. *)
Theorem Update_same_url_skips req resp fs :
  decodes (CallUpdate req) resp ->
  ValueBool (ForceDownload (Raw (update_State req))) = false ->
  ValueString (URL (Raw (update_Plan req)))
  = ValueString (URL (Raw (update_State req))) ->
  let out := Update gen E req resp fs in
  (exists w,
      Diagnostics (returned out)
      = (Diagnostics resp ++ decoding (CallUpdate req)) ++ [w]
      /\ severity w = SeverityWarning
      /\ summary w = "same file")
  /\ State (returned out) = Some (Raw (update_State req))
  /\ events out = []
  /\ files_after out = fs.
Proof.
  intros Hdec Hforce Hurl out. subst out.
  change (Update gen E req resp fs)
    with (invoke gen E (CallUpdate req) resp fs).
  assert (Hsame : same_file req = true).
  { unfold same_file. rewrite Hforce, Hurl, String.eqb_refl. reflexivity. }
  destruct (invoke_exits (CallUpdate req) resp fs)
    as [Herr | ? Hc _ _ | req' Hc _ _ | [_ Hdl]]; cbn [returned files_after events].
  - unfold decodes in Hdec. congruence.
  - discriminate Hc.
  - injection Hc as <-. cbn [State Diagnostics]. eauto 10.
  - congruence.
Qed.

(** *** Answers other than 200 *)

(** C4: when the server's answer to a Create, Read or Update has a status
    other than 200, the call reports the error Download Failed whose detail
    ends in the status text, leaves the state as it was, and touches no
    file: the files are as before and the trace has neither an
    [os.Create] nor a [Write]. *)
Theorem non_200_fails_and_touches_no_file c resp fs rq r :
  In (EvDo rq (Ok r)) (events (invoke gen E c resp fs)) ->
  StatusCode r <> 200 ->
  let out := invoke gen E c resp fs in
  Diagnostics (returned out)
  = (Diagnostics resp ++ decoding c)
    ++ [{| severity := SeverityError;
           summary := "Download Failed";
           detail := "failed to download file: " +:+ Status r |}]
  /\ State (returned out) = State resp
  /\ files_after out = fs
  /\ touches_no_file (events out).
Proof.
  intros Hin Hcode out. subst out. revert Hin.
  destruct (invoke_exits c resp fs) as [Herr | ? -> _ _ | ? -> _ _ | _];
    cbn [returned files_after events]; intros Hin;
    try solve [in_events Hin].
  apply In_download_events in Hin; [ | discriminate ].
  revert Hin. destruct (download_of_exit c fs);
    cbn [returned files_after events]; intros Hin; in_events Hin;
    injection Hin as _ ->; try contradiction.
  repeat split.
  apply Forall_app. split; [ apply stat_events_touch_no_file | ].
  repeat constructor.
Qed.

(** *** Read *)

(** C5: a Read that finds no file at the state's filename removes the
    resource from the state and returns: the only event is the [os.Stat],
    so nothing is fetched, and no diagnostic is added, so no error is
    reported. *)
Theorem Read_missing_file_removes_resource req resp fs :
  decodes (CallRead req) resp ->
  fs !! ValueString (Filename (Raw (read_State req))) = None ->
  let out := Read gen E req resp fs in
  State (returned out) = None
  /\ Diagnostics (returned out) = Diagnostics resp ++ GetDiags (read_State req)
  /\ HasError (Diagnostics (returned out)) = false
  /\ events out = [EvStat (ValueString (Filename (Raw (read_State req)))) true]
  /\ files_after out = fs.
Proof.
  intros Hdec Hfile out. subst out.
  change (Read gen E req resp fs) with (invoke gen E (CallRead req) resp fs).
  destruct (invoke_exits (CallRead req) resp fs)
    as [Herr | ? _ _ _ | ? Hc _ _ | [_ Hdl]];
    cbn [returned files_after events].
  - unfold decodes in Hdec. congruence.
  - repeat split. exact Hdec.
  - discriminate Hc.
  - contradiction.
Qed.

(** What a Read does once its re-fetch has succeeded. *)
Lemma Read_after_refetch req resp fs bs :
  decodes (CallRead req) resp ->
  fs !! ValueString (Filename (Raw (read_State req))) <> None ->
  refetch_succeeds E (Raw (read_State req)) bs ->
  exists r,
    StatusCode r = 200 /\ Body r = Ok bs
    /\ Read gen E req resp fs
       = {| returned :=
              conclude (CallRead req)
                (Diagnostics_Append resp (GetDiags (read_State req)))
                (Checksums (gen bs) None);
            files_after :=
              <[ValueString (Filename (Raw (read_State req))) := bs]> fs;
            events :=
              [EvStat (ValueString (Filename (Raw (read_State req)))) false;
               EvNewRequest
                 (resolve_method E (Method (Raw (read_State req))))
                 (ValueString (URL (Raw (read_State req)))) None;
               EvDo (request_for E
                       (resolve_method E (Method (Raw (read_State req))))
                       (ValueString (URL (Raw (read_State req))))
                       (flatten_headers (Headers (Raw (read_State req)))))
                    (Ok r);
               EvMkdirAll
                 (filepath_Dir E
                    (ValueString (Filename (Raw (read_State req))))) None;
               EvCreate (ValueString (Filename (Raw (read_State req)))) None;
               EvReadAll (Ok bs);
               EvChecksums bs;
               EvWrite (ValueString (Filename (Raw (read_State req)))) bs
                       None] |}.
Proof.
  intros Hdec Hfile Hfetch.
  destruct (downloadFile_succeeds _ _ _ _ _ fs Hfetch)
    as (r & Hcode & Hbody & Hrun).
  exists r. split; [ exact Hcode | split; [ exact Hbody | ] ].
  change (Read gen E req resp fs) with (invoke gen E (CallRead req) resp fs).
  destruct (invoke_exits (CallRead req) resp fs)
    as [Herr | ? _ _ Hnone | ? Hc _ _ | _].
  - unfold decodes in Hdec. congruence.
  - contradiction.
  - discriminate Hc.
  - unfold download_of. cbn [wanted]. rewrite Hrun. reflexivity.
Qed.

(** C6: a Read whose file exists and whose re-fetch succeeds with the
    bytes [bs] adds no diagnostic; when the SHA-1 of [bs] is not the stored
    id it removes the resource from the state, and when it is the stored id
    it persists the state with id, sha1 and sha256 taken from [bs]. *)
Theorem Read_drift_or_refresh req resp fs bs :
  decodes (CallRead req) resp ->
  fs !! ValueString (Filename (Raw (read_State req))) <> None ->
  refetch_succeeds E (Raw (read_State req)) bs ->
  let m := Raw (read_State req) in
  let out := Read gen E req resp fs in
  Diagnostics (returned out) = Diagnostics resp ++ GetDiags (read_State req)
  /\ HasError (Diagnostics (returned out)) = false
  /\ (sha1Hex (gen bs) <> ValueString (ID m) ->
      State (returned out) = None)
  /\ (sha1Hex (gen bs) = ValueString (ID m) ->
      State (returned out)
      = Some {| URL := URL m; Filename := Filename m; Method := Method m;
                Headers := Headers m; ForceDownload := ForceDownload m;
                ID := StringValue (sha1Hex (gen bs));
                Sha1 := StringValue (sha1Hex (gen bs));
                Sha256 := StringValue (sha256Hex (gen bs)) |}).
Proof.
  intros Hdec Hfile Hfetch m out. subst out m.
  destruct (Read_after_refetch req resp fs bs Hdec Hfile Hfetch)
    as (r & _ & _ & ->).
  cbn [returned conclude wanted].
  destruct (String.eqb (sha1Hex (gen bs))
              (ValueString (ID (Raw (read_State req))))) eqn:Hid;
    cbn [negb State Diagnostics State_RemoveResource Diagnostics_Append].
  - apply String.eqb_eq in Hid. repeat split; [ exact Hdec | congruence ].
  - apply String.eqb_neq in Hid. repeat split; [ exact Hdec | congruence ].
Qed.

(** C9: a Read whose file exists and whose fetch succeeds has written the
    fetched bytes over the file by the time it compares checksums: the
    write is the last event of the call, the file holds the new bytes
    afterwards, and this is so also when the checksums differ and the
    resource is removed from the state. *)
Theorem Read_overwrites_before_comparing req resp fs bs :
  decodes (CallRead req) resp ->
  fs !! ValueString (Filename (Raw (read_State req))) <> None ->
  refetch_succeeds E (Raw (read_State req)) bs ->
  let m := Raw (read_State req) in
  let out := Read gen E req resp fs in
  files_after out = <[ValueString (Filename m) := bs]> fs
  /\ files_after out !! ValueString (Filename m) = Some bs
  /\ (exists before,
        events out = before ++ [EvWrite (ValueString (Filename m)) bs None])
  /\ (sha1Hex (gen bs) <> ValueString (ID m) ->
      State (returned out) = None
      /\ files_after out !! ValueString (Filename m) = Some bs).
Proof.
  intros Hdec Hfile Hfetch m out. subst out m.
  destruct (Read_after_refetch req resp fs bs Hdec Hfile Hfetch)
    as (r & _ & _ & ->).
  cbn [returned files_after events conclude wanted].
  split; [ reflexivity | ].
  split; [ apply lookup_insert_eq | ].
  split.
  - eexists [_; _; _; _; _; _; _]. reflexivity.
  - intros Hid. apply String.eqb_neq in Hid. rewrite Hid.
    split; [ reflexivity | apply lookup_insert_eq ].
Qed.

(** *** The order of a fetch *)

(** C10: whenever a call fails to read the body of an answer, that answer
    had status 200 and the destination file was created or truncated
    before the read; the call reports the error, leaves the state as it
    was, and leaves an empty file at the destination. *)
Theorem failed_body_read_leaves_empty_file c resp fs msg :
  In (EvReadAll (Err msg)) (events (invoke gen E c resp fs)) ->
  let out := invoke gen E c resp fs in
  (exists rq r, In (EvDo rq (Ok r)) (events out)
                /\ StatusCode r = 200 /\ Body r = Err msg)
  /\ precedes is_truncate is_body_read (events out) = true
  /\ files_after out !! destination c = Some []
  /\ Diagnostics (returned out)
     = (Diagnostics resp ++ decoding c)
       ++ [{| severity := SeverityError;
              summary := "Download Failed";
              detail := msg |}]
  /\ State (returned out) = State resp.
Proof.
  intros Hin out. subst out. revert Hin.
  destruct (invoke_exits c resp fs) as [Herr | ? -> _ _ | ? -> _ _ | _];
    cbn [returned files_after events]; intros Hin;
    try solve [in_events Hin].
  apply In_download_events in Hin; [ | discriminate ].
  revert Hin. destruct (download_of_exit c fs) as [| | | | |r err|];
    cbn [returned files_after events]; intros Hin; in_events Hin.
  injection Hin as ->.
  split; [ | split; [ | split; [ | split ] ] ].
  - exists (request_for E (resolve_method E (Method (wanted c)))
              (ValueString (URL (wanted c)))
              (flatten_headers (Headers (wanted c)))), r.
    split; [ | split; assumption ].
    apply in_or_app. right. cbn. tauto.
  - destruct c; reflexivity.
  - apply lookup_insert_eq.
  - reflexivity.
  - reflexivity.
Qed.

(** C3, as the code has it: in every call that buffers a response body,
    the destination file is created or truncated first, then the whole
    body is read, then the checksums are computed from the bytes read, and
    only then are the bytes written to the file.  The trace is the request,
    the answer, the directory, and these four steps in this order. *)
Theorem fetch_truncates_buffers_hashes_writes c resp fs :
  fetches (events (invoke gen E c resp fs)) = true ->
  let out := invoke gen E c resp fs in
  order_of_code (events out) = true
  /\ exists rq r bs werr,
      events out
      = stat_events c
        ++ [EvNewRequest (req_Method rq) (req_URL rq) None;
            EvDo rq (Ok r);
            EvMkdirAll (filepath_Dir E (destination c)) None;
            EvCreate (destination c) None;
            EvReadAll (Ok bs);
            EvChecksums bs;
            EvWrite (destination c) bs werr].
Proof.
  intros Hfetch out. subst out. revert Hfetch.
  destruct (invoke_exits c resp fs) as [Herr | ? -> _ _ | ? -> _ _ | _];
    cbn [returned files_after events]; try discriminate.
  destruct (download_of_exit c fs);
    try solve [destruct c; discriminate].
  cbn [events]. intros _. split; [ destruct c; reflexivity | ].
  eexists (request_for E _ _ _), _, _, _.
  rewrite (proj1 (request_for_line _ _ _)), (proj2 (request_for_line _ _ _)).
  reflexivity.
Qed.

(** *** The method of the request *)

(** Every request a Create, Read or Update sends uses GET when the method
    attribute is null or empty, and otherwise the attribute's value put in
    upper case by [strings.ToUpper]. *)
Theorem request_method_is_upper_cased c resp fs :
  sends_method gen E (method_upper E) c resp fs.
Proof.
  unfold sends_method, method_attr.
  destruct (invoke_exits c resp fs) as [Herr | ? -> _ _ | ? -> _ _ | _];
    cbn [returned files_after events]; try solve [constructor].
  assert (Hstat : requests (stat_events c ++ events (download_of gen E c fs))
                  = requests (events (download_of gen E c fs))).
  { destruct c; reflexivity. }
  rewrite Hstat.
  destruct (download_of_exit c fs); cbn; repeat constructor;
    rewrite (proj1 (request_for_line _ _ _)); apply resolve_method_upper.
Qed.

(** On the values the schema lets through, upper case changes nothing. *)
Lemma method_upper_on_valid m :
  ValueString m = "GET" \/ ValueString m = "POST" ->
  method_upper E m = method_as_worded m.
Proof.
  unfold method_upper, method_as_worded.
  destruct (IsNull m || String.eqb (ValueString m) ""); [ reflexivity | ].
  intros [-> | ->]; reflexivity.
Qed.

(** *** Update when the state forces the download *)

(** The test of Update reads force_download from the previous state:
    when it is true there, Update goes on to [downloadFile]. *)
Lemma Update_forced_by_state req resp fs :
  decodes (CallUpdate req) resp ->
  ValueBool (ForceDownload (Raw (update_State req))) = true ->
  exists method url,
    In (EvNewRequest method url (NewRequest_err E method url))
       (events (Update gen E req resp fs)).
Proof.
  intros Hdec Hforce.
  change (Update gen E req resp fs)
    with (invoke gen E (CallUpdate req) resp fs).
  destruct (invoke_exits (CallUpdate req) resp fs)
    as [Herr | ? Hc _ _ | req' Hc _ Hsame | _];
    cbn [returned files_after events].
  - unfold decodes in Hdec. congruence.
  - discriminate Hc.
  - injection Hc as <-. unfold same_file in Hsame.
    rewrite Hforce in Hsame. discriminate.
  - exists (resolve_method E (Method (wanted (CallUpdate req)))),
           (ValueString (URL (wanted (CallUpdate req)))).
    destruct (download_of_exit (CallUpdate req) fs) as [? Hreq|? Hreq| ? Hreq
      | ? ? Hreq | ? ? Hreq | ? ? Hreq | ? ? Hreq];
      rewrite Hreq; cbn; tauto.
Qed.

End Properties.

(** ** The invariant of the tracked state *)

Section Lifecycle.

Variable gen : list Byte.byte -> fileChecksums.

(** The state a call leaves is the state it was given, nothing, or a state
    whose id is its sha1. *)
Lemma persisted_state E c resp fs :
  let st := State (returned (invoke gen E c resp fs)) in
  st = State resp
  \/ st = None
  \/ (exists req, c = CallUpdate req /\ st = Some (Raw (update_State req)))
  \/ (exists m, st = Some m /\ ID m = Sha1 m).
Proof.
  intros st. subst st.
  destruct (invoke_exits gen E c resp fs) as [Herr | ? Hc _ _ | ? Hc _ _ | _];
    cbn [returned State State_RemoveResource Diagnostics_Append];
    [ eauto | eauto | eauto 10 | ].
  destruct (returned (download_of gen E c fs)) as [err|cs [err|]];
    cbn [conclude State AddError Diagnostics_Append]; eauto.
  destruct c; cbn [State]; [ eauto 10 | | eauto 10 ].
  destruct (negb _); cbn [State State_RemoveResource]; eauto 10.
Qed.

(** C7: throughout the life of a resource, every state record that
    Create, Read or Update has persisted has its id equal to its sha1. *)
Theorem tracked_id_is_sha1 st :
  tracked gen st -> forall m, st = Some m -> ID m = Sha1 m.
Proof.
  induction 1 as [ | E req fs _ _ | E req fs m0 _ IH Hraw
                   | E req fs m0 _ IH Hraw ]; intros m Hst.
  - discriminate.
  - destruct (persisted_state E (CallCreate req) fresh fs)
      as [H|[H|[(? & Hc & _)|(m' & H & Hid)]]]; cbn [invoke] in *;
      try discriminate Hc; rewrite H in Hst;
      try discriminate; congruence.
  - destruct (persisted_state E (CallRead req) (holding m0) fs)
      as [H|[H|[(? & Hc & _)|(m' & H & Hid)]]]; cbn [invoke] in *;
      try discriminate Hc; rewrite H in Hst; try discriminate.
    + apply IH. exact Hst.
    + congruence.
  - destruct (persisted_state E (CallUpdate req) (holding m0) fs)
      as [H|[H|[(req' & Hc & H)|(m' & H & Hid)]]]; cbn [invoke] in *;
      rewrite H in Hst; try discriminate.
    + apply IH. exact Hst.
    + injection Hc as <-. apply IH. congruence.
    + congruence.
Qed.

End Lifecycle.

(** ** Runs in the concrete world *)

(** C1 at work: the URL is unchanged and nothing forces the download. *)
Lemma Update_same_url_skips_run :
  decodes (CallUpdate (update_a_bin BoolNull BoolNull))
          (holding (Raw (stored (StringValue "GET") BoolNull)))
  /\ ValueBool (ForceDownload (Raw (update_State (update_a_bin BoolNull BoolNull))))
     = false
  /\ ValueString (URL (Raw (update_Plan (update_a_bin BoolNull BoolNull))))
     = ValueString (URL (Raw (update_State (update_a_bin BoolNull BoolNull))))
  /\ let out := Update genFileChecksums_sha (quiet serve_xyz)
                  (update_a_bin BoolNull BoolNull)
                  (holding (Raw (stored (StringValue "GET") BoolNull)))
                  abc_on_disk in
     (exists w,
         Diagnostics (returned out)
         = (Diagnostics (holding (Raw (stored (StringValue "GET") BoolNull)))
            ++ decoding (CallUpdate (update_a_bin BoolNull BoolNull))) ++ [w]
         /\ severity w = SeverityWarning
         /\ summary w = "same file")
     /\ State (returned out)
        = Some (Raw (update_State (update_a_bin BoolNull BoolNull)))
     /\ events out = []
     /\ files_after out = abc_on_disk.
Proof.
  split; [ reflexivity | ]. split; [ reflexivity | ]. split; [ reflexivity | ].
  apply (Update_same_url_skips genFileChecksums_sha (quiet serve_xyz)
           (update_a_bin BoolNull BoolNull)
           (holding (Raw (stored (StringValue "GET") BoolNull)))
           abc_on_disk); reflexivity.
Defined.

(** The flag that counts is the one of the previous state: with
    force_download in the plan only and the same url, Update takes the skip
    branch, as it does whenever the state's flag is not true. *)
Theorem Update_ignores_force_download_of_plan :
  let req := update_a_bin (BoolValue true) (BoolValue false) in
  let out := Update genFileChecksums_sha (quiet serve_xyz) req
               (holding (Raw (update_State req))) abc_on_disk in
  ForceDownload (Raw (update_Plan req)) = BoolValue true
  /\ URL (Raw (update_Plan req)) = URL (Raw (update_State req))
  /\ events out = []
  /\ files_after out = abc_on_disk
  /\ returned out
     = {| State := Some (Raw (update_State req));
          Diagnostics := [{| severity := SeverityWarning;
                             summary := "same file";
                             detail := "http://h/a.bin" |}] |}.
Proof. cbv zeta. repeat split; reflexivity. Qed.

(** With the flag in the previous state, the same Update does fetch and
    rewrite. *)
Example Update_forced_by_state_run :
  let req := update_a_bin (BoolValue true) (BoolValue true) in
  let out := Update genFileChecksums_sha (quiet serve_xyz) req
               (holding (Raw (update_State req))) abc_on_disk in
  files_after out !! "/tmp/out/a.bin" = Some (list_byte_of_string "xyz")
  /\ fetches (events out) = true.
Proof. vm_compute. split; reflexivity. Qed.

(** C3 as worded fails on a plain Create: the checksums are computed
    (sixth event) before the write (seventh), and the file is truncated
    (fourth) before the body is read (fifth). *)
Lemma Create_hashes_before_it_writes :
  let tr := events (Create genFileChecksums_sha (quiet serve_abc)
                      (create_a_bin (StringValue "GET")) fresh ∅) in
  fetches tr = true
  /\ order_as_worded tr = false
  /\ index_where is_truncate tr = Some 3%nat
  /\ index_where is_body_read tr = Some 4%nat
  /\ index_where is_checksums tr = Some 5%nat
  /\ index_where is_write tr = Some 6%nat.
Proof. vm_compute. repeat split; reflexivity. Qed.

(** C3 as amended, at work on the same Create. *)
Lemma fetch_truncates_buffers_hashes_writes_run :
  fetches (events (invoke genFileChecksums_sha (quiet serve_abc)
                     (CallCreate (create_a_bin (StringValue "GET")))
                     fresh ∅)) = true
  /\ let out := invoke genFileChecksums_sha (quiet serve_abc)
                  (CallCreate (create_a_bin (StringValue "GET"))) fresh ∅ in
     order_of_code (events out) = true
     /\ exists rq r bs werr,
         events out
         = stat_events (CallCreate (create_a_bin (StringValue "GET")))
           ++ [EvNewRequest (req_Method rq) (req_URL rq) None;
               EvDo rq (Ok r);
               EvMkdirAll
                 (filepath_Dir (quiet serve_abc)
                    (destination (CallCreate (create_a_bin (StringValue "GET")))))
                 None;
               EvCreate
                 (destination (CallCreate (create_a_bin (StringValue "GET"))))
                 None;
               EvReadAll (Ok bs);
               EvChecksums bs;
               EvWrite
                 (destination (CallCreate (create_a_bin (StringValue "GET"))))
                 bs werr].
Proof.
  split; [ vm_compute; reflexivity | ].
  apply (fetch_truncates_buffers_hashes_writes genFileChecksums_sha
           (quiet serve_abc) (CallCreate (create_a_bin (StringValue "GET")))
           fresh ∅).
  vm_compute. reflexivity.
Defined.

(** C4 at work: the server answers 404. *)
Lemma non_200_fails_and_touches_no_file_run :
  let r := {| StatusCode := 404; Status := "404 Not Found"; Body := Ok [] |} in
  In (EvDo get_a_bin (Ok r))
     (events (invoke genFileChecksums_sha (quiet serve_not_found)
                (CallRead read_a_bin)
                (holding (Raw (read_State read_a_bin))) abc_on_disk))
  /\ StatusCode r <> 200
  /\ let out := invoke genFileChecksums_sha (quiet serve_not_found)
                  (CallRead read_a_bin)
                  (holding (Raw (read_State read_a_bin))) abc_on_disk in
     Diagnostics (returned out)
     = (Diagnostics (holding (Raw (read_State read_a_bin)))
        ++ decoding (CallRead read_a_bin))
       ++ [{| severity := SeverityError;
              summary := "Download Failed";
              detail := "failed to download file: " +:+ Status r |}]
     /\ State (returned out) = State (holding (Raw (read_State read_a_bin)))
     /\ files_after out = abc_on_disk
     /\ touches_no_file (events out).
Proof.
  intros r.
  assert (Hin : In (EvDo get_a_bin (Ok r))
                   (events (invoke genFileChecksums_sha
                              (quiet serve_not_found) (CallRead read_a_bin)
                              (holding (Raw (read_State read_a_bin)))
                              abc_on_disk))).
  { vm_compute. right. right. left. reflexivity. }
  assert (Hcode : StatusCode r <> 200) by (vm_compute; discriminate).
  split; [ exact Hin | ]. split; [ exact Hcode | ].
  exact (non_200_fails_and_touches_no_file genFileChecksums_sha
           (quiet serve_not_found) (CallRead read_a_bin)
           (holding (Raw (read_State read_a_bin))) abc_on_disk
           get_a_bin r Hin Hcode).
Defined.

(** C5 at work: the file has been deleted behind the provider's back. *)
Lemma Read_missing_file_removes_resource_run :
  decodes (CallRead read_a_bin) (holding (Raw (read_State read_a_bin)))
  /\ (∅ : gmap string (list Byte.byte))
       !! ValueString (Filename (Raw (read_State read_a_bin))) = None
  /\ let out := Read genFileChecksums_sha (quiet serve_abc) read_a_bin
                  (holding (Raw (read_State read_a_bin))) ∅ in
     State (returned out) = None
     /\ Diagnostics (returned out)
        = Diagnostics (holding (Raw (read_State read_a_bin)))
          ++ GetDiags (read_State read_a_bin)
     /\ HasError (Diagnostics (returned out)) = false
     /\ events out
        = [EvStat (ValueString (Filename (Raw (read_State read_a_bin)))) true]
     /\ files_after out = ∅.
Proof.
  split; [ reflexivity | ]. split; [ reflexivity | ].
  apply (Read_missing_file_removes_resource genFileChecksums_sha
           (quiet serve_abc) read_a_bin
           (holding (Raw (read_State read_a_bin))) ∅); reflexivity.
Defined.

(** The re-fetch of [read_a_bin] succeeds against either server. *)
Lemma refetch_abc :
  refetch_succeeds (quiet serve_abc) (Raw (read_State read_a_bin))
    (list_byte_of_string "abc").
Proof.
  repeat split.
  exists {| StatusCode := 200; Status := "200 OK";
            Body := Ok (list_byte_of_string "abc") |}.
  repeat split.
Defined.

Lemma refetch_xyz :
  refetch_succeeds (quiet serve_xyz) (Raw (read_State read_a_bin))
    (list_byte_of_string "xyz").
Proof.
  repeat split.
  exists {| StatusCode := 200; Status := "200 OK";
            Body := Ok (list_byte_of_string "xyz") |}.
  repeat split.
Defined.

Lemma a_bin_on_disk :
  abc_on_disk !! ValueString (Filename (Raw (read_State read_a_bin))) <> None.
Proof. vm_compute. discriminate. Defined.

(** C6 at work: the server still serves abc, the state is refreshed. *)
Lemma Read_drift_or_refresh_run :
  decodes (CallRead read_a_bin) (holding (Raw (read_State read_a_bin)))
  /\ abc_on_disk !! ValueString (Filename (Raw (read_State read_a_bin))) <> None
  /\ refetch_succeeds (quiet serve_abc) (Raw (read_State read_a_bin))
       (list_byte_of_string "abc")
  /\ State (returned (Read genFileChecksums_sha (quiet serve_abc) read_a_bin
                        (holding (Raw (read_State read_a_bin))) abc_on_disk))
     = Some (Raw (read_State read_a_bin)).
Proof.
  split; [ reflexivity | ]. split; [ exact a_bin_on_disk | ].
  split; [ exact refetch_abc | ].
  destruct (Read_drift_or_refresh genFileChecksums_sha (quiet serve_abc)
              read_a_bin (holding (Raw (read_State read_a_bin))) abc_on_disk
              (list_byte_of_string "abc") eq_refl a_bin_on_disk refetch_abc)
    as (_ & _ & _ & Hsame).
  rewrite Hsame; vm_compute; reflexivity.
Defined.

(** C9 at work: the server now serves xyz; the resource is dropped from the
    state, and the file holds xyz. *)
Lemma Read_overwrites_before_comparing_run :
  decodes (CallRead read_a_bin) (holding (Raw (read_State read_a_bin)))
  /\ abc_on_disk !! ValueString (Filename (Raw (read_State read_a_bin))) <> None
  /\ refetch_succeeds (quiet serve_xyz) (Raw (read_State read_a_bin))
       (list_byte_of_string "xyz")
  /\ let out := Read genFileChecksums_sha (quiet serve_xyz) read_a_bin
                  (holding (Raw (read_State read_a_bin))) abc_on_disk in
     State (returned out) = None
     /\ files_after out !! "/tmp/out/a.bin" = Some (list_byte_of_string "xyz").
Proof.
  split; [ reflexivity | ]. split; [ exact a_bin_on_disk | ].
  split; [ exact refetch_xyz | ].
  destruct (Read_overwrites_before_comparing genFileChecksums_sha
              (quiet serve_xyz) read_a_bin
              (holding (Raw (read_State read_a_bin))) abc_on_disk
              (list_byte_of_string "xyz") eq_refl a_bin_on_disk refetch_xyz)
    as (_ & _ & _ & Hdrift).
  apply Hdrift. vm_compute. discriminate.
Defined.

(** C10 at work: the connection breaks while the body is read. *)
Lemma failed_body_read_leaves_empty_file_run :
  In (EvReadAll (Err "unexpected EOF"))
     (events (invoke genFileChecksums_sha (quiet serve_cut_short)
                (CallUpdate (update_a_bin BoolNull (BoolValue true)))
                (holding (Raw (stored (StringValue "GET") (BoolValue true))))
                abc_on_disk))
  /\ let out := invoke genFileChecksums_sha (quiet serve_cut_short)
                  (CallUpdate (update_a_bin BoolNull (BoolValue true)))
                  (holding (Raw (stored (StringValue "GET") (BoolValue true))))
                  abc_on_disk in
     files_after out !! "/tmp/out/a.bin" = Some []
     /\ HasError (Diagnostics (returned out)) = true
     /\ State (returned out)
        = Some (Raw (stored (StringValue "GET") (BoolValue true))).
Proof.
  assert (Hin : In (EvReadAll (Err "unexpected EOF"))
     (events (invoke genFileChecksums_sha (quiet serve_cut_short)
                (CallUpdate (update_a_bin BoolNull (BoolValue true)))
                (holding (Raw (stored (StringValue "GET") (BoolValue true))))
                abc_on_disk))).
  { vm_compute. do 4 right. left. reflexivity. }
  split; [ exact Hin | ].
  destruct (failed_body_read_leaves_empty_file genFileChecksums_sha
              (quiet serve_cut_short)
              (CallUpdate (update_a_bin BoolNull (BoolValue true)))
              (holding (Raw (stored (StringValue "GET") (BoolValue true))))
              abc_on_disk "unexpected EOF" Hin)
    as (_ & _ & Hfile & Hdiag & Hstate).
  split; [ exact Hfile | ]. split; [ rewrite Hdiag; reflexivity | exact Hstate ].
Defined.

(** C7 at work: the state a Create leaves. *)
Lemma tracked_id_is_sha1_run :
  tracked genFileChecksums_sha
    (State (returned (Create genFileChecksums_sha (quiet serve_abc)
                        (create_a_bin (StringValue "GET")) fresh ∅)))
  /\ State (returned (Create genFileChecksums_sha (quiet serve_abc)
                        (create_a_bin (StringValue "GET")) fresh ∅))
     = Some (Raw (stored (StringValue "GET") BoolNull))
  /\ ID (Raw (stored (StringValue "GET") BoolNull))
     = Sha1 (Raw (stored (StringValue "GET") BoolNull)).
Proof.
  assert (Htracked : tracked genFileChecksums_sha
    (State (returned (Create genFileChecksums_sha (quiet serve_abc)
                        (create_a_bin (StringValue "GET")) fresh ∅)))).
  { apply tracked_Create. apply tracked_nothing. }
  assert (Hstate : State (returned (Create genFileChecksums_sha
                        (quiet serve_abc)
                        (create_a_bin (StringValue "GET")) fresh ∅))
     = Some (Raw (stored (StringValue "GET") BoolNull))).
  { vm_compute. reflexivity. }
  split; [ exact Htracked | ]. split; [ exact Hstate | ].
  exact (tracked_id_is_sha1 genFileChecksums_sha _ Htracked _ Hstate).
Defined.

(** What [strings.ToUpper] is there for: a method in lower case, which
    the schema's validator does not let through, would go out in upper
    case. *)
Lemma lower_case_method_is_sent_in_upper_case :
  let c := CallCreate (create_a_bin (StringValue "post")) in
  let out := invoke genFileChecksums_sha (quiet serve_abc) c fresh ∅ in
  map req_Method (requests (events out)) = ["POST"]
  /\ method_as_worded (method_attr c) = "post"
  /\ ~ sends_method genFileChecksums_sha (quiet serve_abc) method_as_worded
        c fresh ∅.
Proof.
  split; [ vm_compute; reflexivity | ].
  split; [ reflexivity | ].
  unfold sends_method. intros Hall.
  assert (Hone : Forall (fun m => m = "post")
                   (map req_Method
                      (requests
                         (events (invoke genFileChecksums_sha
                                    (quiet serve_abc)
                                    (CallCreate
                                       (create_a_bin (StringValue "post")))
                                    fresh ∅))))).
  { apply Forall_map. exact Hall. }
  vm_compute in Hone. apply Forall_inv in Hone. discriminate Hone.
Qed.

(** * Further properties of the resource *)

Section Behaviour.

Variable gen : list Byte.byte -> fileChecksums.
Variable E : Env.

(** ** Delete *)

(** X1: Delete calls [os.Remove] on the state's filename and nothing else.
    It hands the response back as it got it, whether the removal worked or
    not; the file is gone when it worked, the files are as before when it
    did not, and no other path is touched either way. *)
Theorem Delete_is_best_effort req resp fs :
  let path := ValueString (Filename (Raw (delete_State req))) in
  let out := Delete E req resp fs in
  returned out = resp
  /\ events out = [EvRemove path (Remove_err E path)]
  /\ (Remove_err E path = None ->
      files_after out = delete path fs /\ files_after out !! path = None)
  /\ (Remove_err E path <> None -> files_after out = fs)
  /\ (forall other, other <> path -> files_after out !! other = fs !! other).
Proof.
  intros path out. subst out.
  unfold Delete, os_Remove, unlink, emit, bind, ret. fold path.
  destruct (Remove_err E path) as [err|]; cbn [returned files_after events app].
  - split; [ reflexivity | ]. split; [ reflexivity | ].
    split; [ discriminate | ]. split; reflexivity.
  - split; [ reflexivity | ]. split; [ reflexivity | ].
    split; [ intros _; split; [ reflexivity | apply lookup_delete_eq ] | ].
    split; [ congruence | ].
    intros other Hne. apply lookup_delete_ne. congruence.
Qed.

(** ** What a call leaves on disk *)

(** The files after a download: as before, or with new content at the
    destination. *)
Lemma download_of_files c fs :
  files_after (download_of gen E c fs) = fs
  \/ exists content,
      files_after (download_of gen E c fs) = <[destination c := content]> fs.
Proof.
  destruct (download_of_exit gen E c fs); cbn [files_after]; eauto.
  right. eexists. apply insert_insert_eq.
Qed.

Lemma invoke_files c resp fs :
  files_after (invoke gen E c resp fs) = fs
  \/ exists content,
      files_after (invoke gen E c resp fs) = <[destination c := content]> fs.
Proof.
  destruct (invoke_exits gen E c resp fs) as [Herr | ? Hc _ _ | ? Hc _ _ | _];
    cbn [files_after]; eauto.
  apply download_of_files.
Qed.

(** X7: a Create, Read or Update changes no file other than the one at the
    destination path. *)
Theorem other_files_are_untouched c resp fs other :
  other <> destination c ->
  files_after (invoke gen E c resp fs) !! other = fs !! other.
Proof.
  intros Hne. destruct (invoke_files c resp fs) as [-> | [content ->]].
  - reflexivity.
  - apply lookup_insert_ne. congruence.
Qed.

(** X5: a call in which no [os.Create] succeeded leaves every file as it
    was. *)
Theorem without_create_nothing_changes c resp fs :
  (forall path, ~ In (EvCreate path None) (events (invoke gen E c resp fs))) ->
  files_after (invoke gen E c resp fs) = fs.
Proof.
  destruct (invoke_exits gen E c resp fs) as [Herr | ? Hc _ _ | ? Hc _ _ | _];
    cbn [files_after events]; try reflexivity.
  destruct (download_of_exit gen E c fs); cbn [files_after events];
    try reflexivity; intros Hnone; exfalso;
    apply (Hnone (destination c)); apply in_or_app; right; cbn; tauto.
Qed.

(** ** Failures *)

(** X4: when one of the calls of [downloadFile] fails, it is the last thing
    the lifecycle method does: the method appends the error Download Failed
    with that call's message as its detail and leaves the state as it
    was. *)
Theorem failure_is_reported_and_ends_the_call c resp fs e msg :
  In e (events (invoke gen E c resp fs)) ->
  failure e = Some msg ->
  let out := invoke gen E c resp fs in
  Diagnostics (returned out)
  = (Diagnostics resp ++ decoding c)
    ++ [{| severity := SeverityError;
           summary := "Download Failed";
           detail := msg |}]
  /\ State (returned out) = State resp
  /\ exists before, events out = before ++ [e].
Proof.
  intros Hin Hfail out. subst out. revert Hin.
  destruct (invoke_exits gen E c resp fs) as [Herr | ? Hc _ _ | ? Hc _ _ | _];
    cbn [returned files_after events]; intros Hin;
    try solve [in_events Hin; subst e; discriminate Hfail].
  apply in_app_or in Hin as [Hin|Hin].
  { apply stat_events_are_stats in Hin as (path & b & ->). discriminate. }
  revert Hin.
  destruct (download_of_exit gen E c fs) as [ | | | | | |r bs];
    cbn [returned files_after events]; intros Hin; in_events Hin;
    subst e; try discriminate Hfail;
    try (injection Hfail as <-; repeat split;
         match goal with
         | |- exists before, ?s ++ ?l = before ++ [_] =>
             exists (s ++ removelast l); rewrite <- app_assoc; reflexivity
         end).
  cbn [failure] in Hfail. unfold write_error.
  destruct (Write_err E (destination c) bs) as [[n m]|]; [ | discriminate ].
  injection Hfail as <-. repeat split.
  eexists (stat_events c ++ [_; _; _; _; _; _]).
  rewrite <- app_assoc. reflexivity.
Qed.

(** X6: when the write fails after [n] bytes, the destination file holds
    the first [n] bytes of the body; the checksums had been computed, but
    the method reports the error and does not persist them. *)
Theorem short_write_leaves_a_prefix c resp fs path bs n msg :
  In (EvWrite path bs (Some (n, msg))) (events (invoke gen E c resp fs)) ->
  let out := invoke gen E c resp fs in
  path = destination c
  /\ In (EvChecksums bs) (events out)
  /\ files_after out !! destination c = Some (firstn n bs)
  /\ HasError (Diagnostics (returned out)) = true
  /\ State (returned out) = State resp.
Proof.
  intros Hin out. subst out. revert Hin.
  destruct (invoke_exits gen E c resp fs) as [Herr | ? Hc _ _ | ? Hc _ _ | _];
    cbn [returned files_after events]; intros Hin;
    try solve [in_events Hin].
  apply In_download_events in Hin; [ | discriminate ].
  revert Hin.
  destruct (download_of_exit gen E c fs) as [ | | | | | |r bs'];
    cbn [returned files_after events]; intros Hin; in_events Hin.
  injection Hin as <- <- Hwrite. unfold write_error, written.
  rewrite Hwrite. cbn [conclude].
  split; [ reflexivity | ]. split.
  { apply in_or_app. right. cbn. tauto. }
  split; [ apply lookup_insert_eq | ]. split; [ | reflexivity ].
  cbn [AddError Diagnostics_Append Diagnostics]. unfold HasError.
  rewrite existsb_app. cbn. apply orb_true_r.
Qed.

(** ** One attempt *)

Lemma count_app p l1 l2 : count p (l1 ++ l2) = (count p l1 + count p l2)%nat.
Proof.
  induction l1 as [|e l1 IH]; cbn; [ reflexivity | ].
  destruct (p e); cbn; rewrite IH; reflexivity.
Qed.

(** X8: a call sends at most one request, creates or truncates at most
    once, reads at most one body and writes at most once: nothing is
    tried twice. *)
Theorem nothing_is_tried_twice c resp fs :
  let tr := events (invoke gen E c resp fs) in
  (count is_request tr <= 1)%nat
  /\ (count is_truncate tr <= 1)%nat
  /\ (count is_body_read tr <= 1)%nat
  /\ (count is_write tr <= 1)%nat.
Proof.
  intros tr. subst tr.
  destruct (invoke_exits gen E c resp fs) as [Herr | ? Hc _ _ | ? Hc _ _ | _];
    cbn [events]; try (cbn; lia).
  rewrite !count_app.
  assert (Hstat : forall p, p = is_request \/ p = is_truncate
                            \/ p = is_body_read \/ p = is_write ->
                            count p (stat_events c) = O).
  { intros p [-> | [-> | [-> | ->]]]; destruct c; reflexivity. }
  rewrite !Hstat by tauto.
  destruct (download_of_exit gen E c fs); cbn; lia.
Qed.

(** ** A fetch that succeeds *)

(** What a call does once its fetch has succeeded. *)
Lemma invoke_after_fetch c resp fs bs :
  downloads c resp fs ->
  fetch_succeeds E (resolve_method E (Method (wanted c)))
    (ValueString (URL (wanted c))) (destination c)
    (flatten_headers (Headers (wanted c))) bs ->
  returned (invoke gen E c resp fs)
  = conclude c (Diagnostics_Append resp (decoding c)) (Checksums (gen bs) None)
  /\ files_after (invoke gen E c resp fs) = <[destination c := bs]> fs
  /\ fetches (events (invoke gen E c resp fs)) = true.
Proof.
  intros [Hdec Hdl] Hfetch.
  destruct (downloadFile_succeeds gen E _ _ _ _ _ fs Hfetch)
    as (r & _ & _ & Hrun).
  destruct (invoke_exits gen E c resp fs)
    as [Herr | ? Hc _ Hnone | ? Hc _ Hsame | _]; cbn [returned files_after events].
  - unfold decodes in Hdec. congruence.
  - subst c. contradiction.
  - subst c. congruence.
  - unfold download_of, destination in *. rewrite Hrun.
    cbn [returned files_after events]. repeat split.
    destruct c; reflexivity.
Qed.

(** X2: a Create whose fetch succeeds with the bytes [bs] persists the plan
    with id and sha1 set to the SHA-1 of [bs] and sha256 to its SHA-256,
    every other attribute as planned; it adds no diagnostic, and the file
    at the planned filename holds [bs]. *)
Theorem Create_persists_the_plan_with_checksums req resp fs bs :
  let plan := Raw (create_Plan req) in
  decodes (CallCreate req) resp ->
  fetch_succeeds E (resolve_method E (Method plan)) (ValueString (URL plan))
    (ValueString (Filename plan)) (flatten_headers (Headers plan)) bs ->
  let out := Create gen E req resp fs in
  State (returned out)
  = Some {| URL := URL plan; Filename := Filename plan;
            Method := Method plan; Headers := Headers plan;
            ForceDownload := ForceDownload plan;
            ID := StringValue (sha1Hex (gen bs));
            Sha1 := StringValue (sha1Hex (gen bs));
            Sha256 := StringValue (sha256Hex (gen bs)) |}
  /\ Diagnostics (returned out) = Diagnostics resp ++ GetDiags (create_Plan req)
  /\ files_after out = <[ValueString (Filename plan) := bs]> fs.
Proof.
  intros plan Hdec Hfetch out. subst out plan.
  change (Create gen E req resp fs)
    with (invoke gen E (CallCreate req) resp fs).
  destruct (invoke_after_fetch (CallCreate req) resp fs bs (conj Hdec I) Hfetch)
    as (-> & -> & _).
  repeat split.
Qed.

(** X3: an Update that is not skipped (the previous state forces the
    download, or the url has changed) and whose fetch succeeds persists the
    plan, not the previous state, with the checksums of the fetched bytes,
    and writes them to the planned filename. *)
Theorem Update_persists_the_plan_with_checksums req resp fs bs :
  let plan := Raw (update_Plan req) in
  let state := Raw (update_State req) in
  decodes (CallUpdate req) resp ->
  ValueBool (ForceDownload state) = true
  \/ ValueString (URL plan) <> ValueString (URL state) ->
  fetch_succeeds E (resolve_method E (Method plan)) (ValueString (URL plan))
    (ValueString (Filename plan)) (flatten_headers (Headers plan)) bs ->
  let out := Update gen E req resp fs in
  State (returned out)
  = Some {| URL := URL plan; Filename := Filename plan;
            Method := Method plan; Headers := Headers plan;
            ForceDownload := ForceDownload plan;
            ID := StringValue (sha1Hex (gen bs));
            Sha1 := StringValue (sha1Hex (gen bs));
            Sha256 := StringValue (sha256Hex (gen bs)) |}
  /\ Diagnostics (returned out) = Diagnostics resp ++ decoding (CallUpdate req)
  /\ files_after out = <[ValueString (Filename plan) := bs]> fs.
Proof.
  intros plan state Hdec Hwhy Hfetch out. subst out plan state.
  change (Update gen E req resp fs)
    with (invoke gen E (CallUpdate req) resp fs).
  assert (Hsame : same_file req = false).
  { unfold same_file. destruct Hwhy as [-> | Hne]; [ reflexivity | ].
    apply String.eqb_neq in Hne. rewrite Hne. apply andb_false_r. }
  destruct (invoke_after_fetch (CallUpdate req) resp fs bs
              (conj Hdec Hsame) Hfetch) as (-> & -> & _).
  repeat split.
Qed.

(** X14: a decoded Update causes no event at all exactly when the previous
    state does not force the download and the planned url is the state's;
    in every other case it enters [downloadFile]. *)
Theorem Update_skips_exactly_when req resp fs :
  decodes (CallUpdate req) resp ->
  events (Update gen E req resp fs) = []
  <-> ValueBool (ForceDownload (Raw (update_State req))) = false
      /\ ValueString (URL (Raw (update_Plan req)))
         = ValueString (URL (Raw (update_State req))).
Proof.
  intros Hdec.
  change (Update gen E req resp fs)
    with (invoke gen E (CallUpdate req) resp fs).
  assert (Hiff : same_file req = true
                 <-> ValueBool (ForceDownload (Raw (update_State req))) = false
                     /\ ValueString (URL (Raw (update_Plan req)))
                        = ValueString (URL (Raw (update_State req)))).
  { unfold same_file.
    rewrite andb_true_iff, negb_true_iff, String.eqb_eq. reflexivity. }
  destruct (invoke_exits gen E (CallUpdate req) resp fs)
    as [Herr | ? Hc _ _ | req' Hc _ Hsame | [_ Hdl]]; cbn [events].
  - unfold decodes in Hdec. congruence.
  - discriminate Hc.
  - injection Hc as <-. split; [ intros _; apply Hiff, Hsame | reflexivity ].
  - cbn in Hdl. split.
    + destruct (download_of_exit gen E (CallUpdate req) fs); discriminate.
    + intros H. apply Hiff in H. congruence.
Qed.

(** ** Errors and the state *)

Lemma HasError_app ds1 ds2 :
  HasError (ds1 ++ ds2) = HasError ds1 || HasError ds2.
Proof. apply existsb_app. Qed.

(** X11: a call that ends with an error among its diagnostics has left the
    state as it was: it has neither persisted nor removed anything. *)
Theorem an_error_leaves_the_state c resp fs :
  HasError (Diagnostics (returned (invoke gen E c resp fs))) = true ->
  State (returned (invoke gen E c resp fs)) = State resp.
Proof.
  destruct (invoke_exits gen E c resp fs)
    as [Herr | ? Hc Hdec _ | ? Hc Hdec _ | [Hdec _]];
    cbn [returned State_RemoveResource Diagnostics_Append State Diagnostics];
    unfold decodes in *.
  - reflexivity.
  - congruence.
  - rewrite HasError_app, Hdec. discriminate.
  - destruct (returned (download_of gen E c fs)) as [err|cs [err|]];
      cbn [conclude AddError Diagnostics_Append State Diagnostics];
      try reflexivity.
    destruct c; cbn [State Diagnostics]; try congruence.
    destruct (negb _);
      cbn [State_RemoveResource Diagnostics_Append State Diagnostics];
      congruence.
Qed.

(** X13: when a call has buffered a body, ends without an error and leaves
    a state record, that record is the plan (for Read, the state) with the
    checksums of exactly the bytes the destination file now holds. *)
Theorem persisted_checksums_are_of_the_file c resp fs m :
  fetches (events (invoke gen E c resp fs)) = true ->
  HasError (Diagnostics (returned (invoke gen E c resp fs))) = false ->
  State (returned (invoke gen E c resp fs)) = Some m ->
  exists bs,
    files_after (invoke gen E c resp fs) !! destination c = Some bs
    /\ m = with_checksums (wanted c) (gen bs).
Proof.
  destruct (invoke_exits gen E c resp fs)
    as [Herr | ? Hc _ _ | ? Hc _ _ | [Hdec _]];
    cbn [returned files_after events]; try discriminate.
  destruct (download_of_exit gen E c fs) as [ | | | | | |r bs];
    cbn [returned files_after events];
    try solve [destruct c; discriminate].
  intros _. unfold write_error, written.
  destruct (Write_err E (destination c) bs) as [[n msg]|];
    cbn [conclude AddError Diagnostics_Append State Diagnostics].
  - rewrite HasError_app. cbn. rewrite orb_true_r. discriminate.
  - intros _ Hstate. exists bs. split; [ apply lookup_insert_eq | ].
    destruct c; cbn [State] in Hstate; try congruence.
    destruct (negb _); cbn [State_RemoveResource State] in Hstate;
      congruence.
Qed.

(** ** Operations in sequence *)

(** X12: a Read that follows a successful Create, with the server and the
    file unchanged, finds no drift: it persists the very state Create left,
    reports nothing, and leaves the file with the same bytes. *)
Theorem Read_after_Create_changes_nothing req fs bs :
  let plan := Raw (create_Plan req) in
  decodes (CallCreate req) fresh ->
  fetch_succeeds E (resolve_method E (Method plan)) (ValueString (URL plan))
    (ValueString (Filename plan)) (flatten_headers (Headers plan)) bs ->
  let created := Create gen E req fresh fs in
  exists m,
    State (returned created) = Some m
    /\ let read := Read gen E {| read_State := {| Raw := m; GetDiags := [] |} |}
                      (holding m) (files_after created) in
       returned read = holding m
       /\ files_after read = files_after created.
Proof.
  intros plan Hdec Hfetch created. subst created plan.
  change (Create gen E req fresh fs)
    with (invoke gen E (CallCreate req) fresh fs).
  destruct (invoke_after_fetch (CallCreate req) fresh fs bs (conj Hdec I) Hfetch)
    as (-> & -> & _).
  cbn [conclude State]. eexists. split; [ reflexivity | ].
  set (m := with_checksums (wanted (CallCreate req)) (gen bs)).
  set (rd := {| read_State := {| Raw := m; GetDiags := [] |} |}).
  change (Read gen E rd (holding m)
            (<[destination (CallCreate req) := bs]> fs))
    with (invoke gen E (CallRead rd) (holding m)
            (<[destination (CallCreate req) := bs]> fs)).
  assert (Hdl : downloads (CallRead rd) (holding m)
                  (<[destination (CallCreate req) := bs]> fs)).
  { split; [ reflexivity | ].
    change (destination (CallRead rd)) with (destination (CallCreate req)).
    rewrite lookup_insert_eq. discriminate. }
  destruct (invoke_after_fetch (CallRead rd) (holding m) _ bs Hdl Hfetch)
    as (-> & -> & _).
  cbn [conclude wanted rd read_State Raw m with_checksums ID ValueString].
  rewrite String.eqb_refl. cbn [negb].
  split; [ reflexivity | ].
  change (destination (CallRead rd)) with (destination (CallCreate req)).
  apply insert_insert_eq.
Qed.

(** X16: when there was no file at the planned filename, a successful
    Create followed by a Delete whose removal works leaves the files
    exactly as they were before the Create. *)
Theorem Delete_after_Create_restores_the_files req fs bs resp :
  let plan := Raw (create_Plan req) in
  decodes (CallCreate req) fresh ->
  fetch_succeeds E (resolve_method E (Method plan)) (ValueString (URL plan))
    (ValueString (Filename plan)) (flatten_headers (Headers plan)) bs ->
  fs !! ValueString (Filename plan) = None ->
  Remove_err E (ValueString (Filename plan)) = None ->
  let created := Create gen E req fresh fs in
  exists m,
    State (returned created) = Some m
    /\ files_after
         (Delete E {| delete_State := {| Raw := m; GetDiags := [] |} |} resp
            (files_after created))
       = fs.
Proof.
  intros plan Hdec Hfetch Hnone Hremove created. subst created plan.
  change (Create gen E req fresh fs)
    with (invoke gen E (CallCreate req) fresh fs).
  destruct (invoke_after_fetch (CallCreate req) fresh fs bs (conj Hdec I) Hfetch)
    as (-> & -> & _).
  cbn [conclude State]. eexists. split; [ reflexivity | ].
  unfold Delete, os_Remove, unlink, emit, bind, ret.
  cbn [delete_State Raw with_checksums Filename wanted].
  rewrite Hremove. cbn [files_after].
  apply delete_insert_id. exact Hnone.
Qed.

(** ** Headers *)

(** The string elements of the headers attribute, and only they, are kept. *)
Lemma flatten_headers_lookup h k v :
  flatten_headers h !! k = Some v
  <-> exists s, Elements h !! k = Some (AttrString s) /\ v = ValueString s.
Proof.
  unfold flatten_headers. rewrite lookup_omap.
  destruct (Elements h !! k) as [[s|b]|]; cbn.
  - split; [ intros [= <-]; eauto | intros (s' & [= <-] & ->); reflexivity ].
  - split; [ discriminate | intros (s' & [=] & _) ].
  - split; [ discriminate | intros (s' & [=] & _) ].
Qed.

(** Every header of the request was set from an entry of the map. *)
Lemma request_for_headers_from method url headers k' v :
  req_Header (request_for E method url headers) !! k' = Some v ->
  exists k, CanonicalMIMEHeaderKey E k = k' /\ headers !! k = Some v.
Proof.
  unfold request_for. revert k' v.
  apply (map_fold_weak_ind
           (fun (rq : Request) (m : gmap string string) =>
              forall k' v, req_Header rq !! k' = Some v ->
                exists k, CanonicalMIMEHeaderKey E k = k' /\ m !! k = Some v)).
  - intros k' v. cbn. rewrite lookup_empty. discriminate.
  - intros i x m rq Hfresh IH k' v. cbn [Header_Set req_Header].
    destruct (decide (CanonicalMIMEHeaderKey E i = k')) as [<-|Hne].
    + rewrite lookup_insert_eq. intros [= <-]. exists i.
      split; [ reflexivity | apply lookup_insert_eq ].
    + rewrite lookup_insert_ne by exact Hne. intros Hk.
      destruct (IH k' v Hk) as (k & Hcanon & Hm). exists k.
      split; [ exact Hcanon | ].
      rewrite lookup_insert_ne; [ exact Hm | congruence ].
Qed.

(** Every entry of the map is in the request under its canonical key, as
    long as no two keys of the map have the same canonical form. *)
Lemma request_for_headers_sent method url headers :
  (forall k1 k2, is_Some (headers !! k1) -> is_Some (headers !! k2) ->
                 CanonicalMIMEHeaderKey E k1 = CanonicalMIMEHeaderKey E k2 ->
                 k1 = k2) ->
  forall k v, headers !! k = Some v ->
    req_Header (request_for E method url headers)
      !! CanonicalMIMEHeaderKey E k = Some v.
Proof.
  unfold request_for.
  apply (map_fold_weak_ind
           (fun (rq : Request) (m : gmap string string) =>
              (forall k1 k2, is_Some (m !! k1) -> is_Some (m !! k2) ->
                 CanonicalMIMEHeaderKey E k1 = CanonicalMIMEHeaderKey E k2 ->
                 k1 = k2) ->
              forall k v, m !! k = Some v ->
                req_Header rq !! CanonicalMIMEHeaderKey E k = Some v)).
  - intros _ k v. rewrite lookup_empty. discriminate.
  - intros i x m rq Hfresh IH Hinj k v. cbn [Header_Set req_Header].
    destruct (decide (i = k)) as [<-|Hne].
    + rewrite !lookup_insert_eq. intros H. exact H.
    + rewrite (lookup_insert_ne m) by exact Hne. intros Hk.
      rewrite lookup_insert_ne.
      * apply IH; [ | exact Hk ].
        intros k1 k2 [v1 H1] [v2 H2]. apply Hinj.
        -- exists v1. rewrite lookup_insert_ne; [ exact H1 | congruence ].
        -- exists v2. rewrite lookup_insert_ne; [ exact H2 | congruence ].
      * intros Hcanon. apply Hne. apply Hinj.
        -- exists x. apply lookup_insert_eq.
        -- exists v. rewrite lookup_insert_ne; [ exact Hk | exact Hne ].
        -- exact Hcanon.
Qed.

(** The request of a call is the one built from its model. *)
Lemma the_request_of_a_call c resp fs rq res :
  In (EvDo rq res) (events (invoke gen E c resp fs)) ->
  rq = request_for E (resolve_method E (Method (wanted c)))
         (ValueString (URL (wanted c)))
         (flatten_headers (Headers (wanted c))).
Proof.
  destruct (invoke_exits gen E c resp fs) as [Herr | ? Hc _ _ | ? Hc _ _ | _];
    cbn [events]; intros Hin; try solve [in_events Hin].
  apply In_download_events in Hin; [ | discriminate ].
  revert Hin.
  destruct (download_of_exit gen E c fs); cbn [events]; intros Hin;
    in_events Hin; injection Hin as <- _; reflexivity.
Qed.

(** X9: every header of a request that a call sends comes from a string
    element of the headers attribute: its name is the canonical form of
    the element's key, its value the element's string.  Elements that are
    no strings, and a null or unknown map, contribute nothing. *)
Theorem sent_headers_are_string_elements c resp fs rq res name v :
  In (EvDo rq res) (events (invoke gen E c resp fs)) ->
  req_Header rq !! name = Some v ->
  exists k s,
    CanonicalMIMEHeaderKey E k = name
    /\ Elements (Headers (wanted c)) !! k = Some (AttrString s)
    /\ v = ValueString s.
Proof.
  intros Hin Hname. apply the_request_of_a_call in Hin. subst rq.
  apply request_for_headers_from in Hname as (k & Hcanon & Hk).
  apply flatten_headers_lookup in Hk as (s & Hs & ->).
  exists k, s. repeat split; assumption.
Qed.

(** X10: when no two string elements of the headers attribute have keys
    with the same canonical form, every string element is in the request a
    call sends, under its canonical key and with its value. *)
Theorem string_elements_are_sent c resp fs rq res k s :
  (forall k1 k2 s1 s2,
      Elements (Headers (wanted c)) !! k1 = Some (AttrString s1) ->
      Elements (Headers (wanted c)) !! k2 = Some (AttrString s2) ->
      CanonicalMIMEHeaderKey E k1 = CanonicalMIMEHeaderKey E k2 ->
      k1 = k2) ->
  In (EvDo rq res) (events (invoke gen E c resp fs)) ->
  Elements (Headers (wanted c)) !! k = Some (AttrString s) ->
  req_Header rq !! CanonicalMIMEHeaderKey E k = Some (ValueString s).
Proof.
  intros Hinj Hin Hk. apply the_request_of_a_call in Hin. subst rq.
  apply request_for_headers_sent.
  - intros k1 k2 [v1 H1] [v2 H2].
    apply flatten_headers_lookup in H1 as (s1 & H1 & _).
    apply flatten_headers_lookup in H2 as (s2 & H2 & _).
    exact (Hinj k1 k2 s1 s2 H1 H2).
  - apply flatten_headers_lookup. eauto.
Qed.

(** ** The schema and the method *)

(** X15: for every configuration of the method attribute that the schema
    admits (GET or POST, or none, for which the schema's default GET is
    planned), the method resolved for the request is the planned value
    itself: neither the upper-casing nor the GET fallback of the lifecycle
    methods changes it. *)
Theorem an_admitted_method_is_used_as_planned a config :
  attribute "method" = Some a ->
  admits a config = true ->
  config <> StringUnknown ->
  let planned := planned_value a config in
  resolve_method E planned = ValueString planned
  /\ (ValueString planned = "GET" \/ ValueString planned = "POST").
Proof.
  intros [= <-] Hadmits Hknown planned. subst planned.
  destruct config as [ | |s]; [ | contradiction | ].
  - split; [ reflexivity | left; reflexivity ].
  - cbn in Hadmits. rewrite !orb_true_iff in Hadmits.
    destruct Hadmits as [H | [H | H]]; [ | | discriminate ];
      apply String.eqb_eq in H; subst s.
    + split; [ reflexivity | left; reflexivity ].
    + split; [ reflexivity | right; reflexivity ].
Qed.

(** ** Decoding, the URL, the diagnostics *)

(** X18: a call whose request does not decode without an error stops there:
    it causes no event, changes no file and leaves the state as it was; the
    diagnostics are the ones it was given followed by those of decoding. *)
Theorem a_request_that_does_not_decode_does_nothing c resp fs :
  HasError (Diagnostics resp ++ decoding c) = true ->
  let out := invoke gen E c resp fs in
  events out = []
  /\ files_after out = fs
  /\ State (returned out) = State resp
  /\ Diagnostics (returned out) = Diagnostics resp ++ decoding c.
Proof.
  intros Herr out. subst out.
  destruct (invoke_exits gen E c resp fs)
    as [_ | ? Hc Hdec _ | ? Hc Hdec _ | [Hdec _]];
    unfold decodes in *; try congruence.
  repeat split.
Qed.

(** X19: every request goes to the url of the model the call works from,
    as it stands there: the plan's url for Create and Update, the state's
    url for Read. *)
Theorem the_request_goes_to_the_url c resp fs rq res :
  In (EvDo rq res) (events (invoke gen E c resp fs)) ->
  req_URL rq = ValueString (URL (wanted c)).
Proof.
  intros Hin. apply the_request_of_a_call in Hin. subst rq.
  apply request_for_line.
Qed.

(** X20: a call never drops a diagnostic: what it returns are the
    diagnostics it was given, then those of decoding, then at most one of
    its own. *)
Theorem diagnostics_only_grow c resp fs :
  exists own,
    Diagnostics (returned (invoke gen E c resp fs))
    = (Diagnostics resp ++ decoding c) ++ own
    /\ (length own <= 1)%nat.
Proof.
  destruct (invoke_exits gen E c resp fs) as [Herr | ? Hc _ _ | ? Hc _ _ | _];
    cbn [returned State_RemoveResource Diagnostics_Append Diagnostics].
  - exists []. rewrite app_nil_r. split; [ reflexivity | cbn; lia ].
  - exists []. rewrite app_nil_r. split; [ reflexivity | cbn; lia ].
  - eexists [_]. split; [ reflexivity | cbn; lia ].
  - destruct (returned (download_of gen E c fs)) as [err|cs [err|]];
      cbn [conclude AddError Diagnostics_Append Diagnostics].
    + eexists [_]. split; [ reflexivity | cbn; lia ].
    + eexists [_]. split; [ reflexivity | cbn; lia ].
    + exists []. rewrite app_nil_r. split; [ | cbn; lia ].
      destruct c; cbn [Diagnostics]; try reflexivity.
      destruct (negb _); reflexivity.
Qed.

End Behaviour.

(** ** Further runs in the concrete world *)

(** The fetch of [create_a_bin] and of [update_a_bin] against either
    server. *)
Lemma fetch_abc :
  fetch_succeeds (quiet serve_abc) "GET" "http://h/a.bin" "/tmp/out/a.bin" ∅
    (list_byte_of_string "abc").
Proof. repeat split. exists abc_answer. repeat split. Defined.

Lemma fetch_xyz :
  fetch_succeeds (quiet serve_xyz) "GET" "http://h/a.bin" "/tmp/out/a.bin" ∅
    (list_byte_of_string "xyz").
Proof.
  repeat split.
  exists {| StatusCode := 200; Status := "200 OK";
            Body := Ok (list_byte_of_string "xyz") |}.
  repeat split.
Defined.

(** X7 at work: an Update to b.bin leaves a.bin alone. *)
Lemma other_files_are_untouched_run :
  "/tmp/out/a.bin" <> destination (CallUpdate update_moved)
  /\ files_after (invoke genFileChecksums_sha (quiet serve_xyz)
                    (CallUpdate update_moved)
                    (holding (Raw (update_State update_moved))) abc_on_disk)
       !! "/tmp/out/a.bin"
     = abc_on_disk !! "/tmp/out/a.bin".
Proof.
  assert (Hne : "/tmp/out/a.bin" <> destination (CallUpdate update_moved))
    by (vm_compute; discriminate).
  split; [ exact Hne | ].
  exact (other_files_are_untouched genFileChecksums_sha (quiet serve_xyz)
           (CallUpdate update_moved)
           (holding (Raw (update_State update_moved))) abc_on_disk
           "/tmp/out/a.bin" Hne).
Defined.

(** No [os.Create] succeeds while the server cannot be reached. *)
Lemma offline_never_creates :
  forall path,
    ~ In (EvCreate path None)
        (events (invoke genFileChecksums_sha offline (CallRead read_a_bin)
                   (holding (Raw (read_State read_a_bin))) abc_on_disk)).
Proof. intros path Hin. vm_compute in Hin. in_events Hin. Defined.

(** X5 at work: a Read while the server cannot be reached. *)
Lemma without_create_nothing_changes_run :
  (forall path,
      ~ In (EvCreate path None)
          (events (invoke genFileChecksums_sha offline (CallRead read_a_bin)
                     (holding (Raw (read_State read_a_bin))) abc_on_disk)))
  /\ files_after (invoke genFileChecksums_sha offline (CallRead read_a_bin)
                    (holding (Raw (read_State read_a_bin))) abc_on_disk)
     = abc_on_disk.
Proof.
  split; [ exact offline_never_creates | ].
  exact (without_create_nothing_changes genFileChecksums_sha offline
           (CallRead read_a_bin) (holding (Raw (read_State read_a_bin)))
           abc_on_disk offline_never_creates).
Defined.

(** X4 at work: the transport error of a Create is what the diagnostic
    says. *)
Lemma failure_is_reported_and_ends_the_call_run :
  In (EvDo get_a_bin (Err "dial tcp: connection refused"))
     (events (invoke genFileChecksums_sha offline
                (CallCreate (create_a_bin (StringValue "GET"))) fresh ∅))
  /\ failure (EvDo get_a_bin (Err "dial tcp: connection refused"))
     = Some "dial tcp: connection refused"
  /\ returned (invoke genFileChecksums_sha offline
                 (CallCreate (create_a_bin (StringValue "GET"))) fresh ∅)
     = {| State := None;
          Diagnostics := [{| severity := SeverityError;
                             summary := "Download Failed";
                             detail := "dial tcp: connection refused" |}] |}.
Proof.
  assert (Hin : In (EvDo get_a_bin (Err "dial tcp: connection refused"))
     (events (invoke genFileChecksums_sha offline
                (CallCreate (create_a_bin (StringValue "GET"))) fresh ∅))).
  { vm_compute. right. left. reflexivity. }
  split; [ exact Hin | ]. split; [ reflexivity | ].
  destruct (failure_is_reported_and_ends_the_call genFileChecksums_sha offline
              (CallCreate (create_a_bin (StringValue "GET"))) fresh ∅
              _ _ Hin eq_refl) as (Hdiag & Hstate & _).
  destruct (returned _) as [st ds]. cbn in Hdiag, Hstate. subst. reflexivity.
Defined.

(** X6 at work: the disk is full after one byte. *)
Lemma short_write_leaves_a_prefix_run :
  In (EvWrite "/tmp/out/a.bin" (list_byte_of_string "abc")
        (Some (1%nat, "no space left on device")))
     (events (invoke genFileChecksums_sha disk_full
                (CallCreate (create_a_bin (StringValue "GET"))) fresh ∅))
  /\ let out := invoke genFileChecksums_sha disk_full
                  (CallCreate (create_a_bin (StringValue "GET"))) fresh ∅ in
     files_after out !! "/tmp/out/a.bin" = Some (list_byte_of_string "a")
     /\ HasError (Diagnostics (returned out)) = true
     /\ State (returned out) = None.
Proof.
  assert (Hin : In (EvWrite "/tmp/out/a.bin" (list_byte_of_string "abc")
        (Some (1%nat, "no space left on device")))
     (events (invoke genFileChecksums_sha disk_full
                (CallCreate (create_a_bin (StringValue "GET"))) fresh ∅))).
  { vm_compute. do 6 right. left. reflexivity. }
  split; [ exact Hin | ].
  destruct (short_write_leaves_a_prefix genFileChecksums_sha disk_full
              (CallCreate (create_a_bin (StringValue "GET"))) fresh ∅
              _ _ _ _ Hin) as (_ & _ & Hfile & Herr & Hstate).
  split; [ exact Hfile | ]. split; [ exact Herr | exact Hstate ].
Defined.

(** X2 at work. *)
Lemma Create_persists_the_plan_with_checksums_run :
  decodes (CallCreate (create_a_bin (StringValue "GET"))) fresh
  /\ fetch_succeeds (quiet serve_abc) "GET" "http://h/a.bin" "/tmp/out/a.bin"
       ∅ (list_byte_of_string "abc")
  /\ let out := Create genFileChecksums_sha (quiet serve_abc)
                  (create_a_bin (StringValue "GET")) fresh ∅ in
     State (returned out) = Some (Raw (stored (StringValue "GET") BoolNull))
     /\ Diagnostics (returned out) = []
     /\ files_after out
        = <["/tmp/out/a.bin" := list_byte_of_string "abc"]> ∅.
Proof.
  split; [ reflexivity | ]. split; [ exact fetch_abc | ].
  destruct (Create_persists_the_plan_with_checksums genFileChecksums_sha
              (quiet serve_abc) (create_a_bin (StringValue "GET")) fresh ∅
              (list_byte_of_string "abc") eq_refl fetch_abc)
    as (Hstate & Hdiag & Hfiles).
  split; [ rewrite Hstate; vm_compute; reflexivity | ].
  split; [ exact Hdiag | exact Hfiles ].
Defined.

(** X3 at work: the previous state forces the download, the server now
    serves xyz. *)
Lemma Update_persists_the_plan_with_checksums_run :
  decodes (CallUpdate (update_a_bin BoolNull (BoolValue true)))
          (holding (Raw (stored (StringValue "GET") (BoolValue true))))
  /\ ValueBool (ForceDownload
                  (Raw (update_State (update_a_bin BoolNull (BoolValue true)))))
     = true
  /\ let out := Update genFileChecksums_sha (quiet serve_xyz)
                  (update_a_bin BoolNull (BoolValue true))
                  (holding (Raw (stored (StringValue "GET") (BoolValue true))))
                  abc_on_disk in
     (ForceDownload <$> State (returned out)) = Some BoolNull
     /\ (ID <$> State (returned out))
        = Some (StringValue "66b27417d37e024c46526c2f6d358a754fc552f3")
     /\ files_after out !! "/tmp/out/a.bin" = Some (list_byte_of_string "xyz").
Proof.
  split; [ reflexivity | ]. split; [ reflexivity | ].
  destruct (Update_persists_the_plan_with_checksums genFileChecksums_sha
              (quiet serve_xyz) (update_a_bin BoolNull (BoolValue true))
              (holding (Raw (stored (StringValue "GET") (BoolValue true))))
              abc_on_disk (list_byte_of_string "xyz") eq_refl
              (or_introl eq_refl) fetch_xyz)
    as (Hstate & _ & Hfiles).
  cbv zeta. rewrite Hstate, Hfiles.
  split; [ reflexivity | ]. split; [ vm_compute; reflexivity | ].
  apply lookup_insert_eq.
Defined.

(** X14 at work: both directions on the two Updates used so far. *)
Lemma Update_skips_exactly_when_run :
  decodes (CallUpdate (update_a_bin BoolNull BoolNull))
          (holding (Raw (stored (StringValue "GET") BoolNull)))
  /\ events (Update genFileChecksums_sha (quiet serve_xyz)
               (update_a_bin BoolNull BoolNull)
               (holding (Raw (stored (StringValue "GET") BoolNull)))
               abc_on_disk) = [].
Proof.
  split; [ reflexivity | ].
  apply (Update_skips_exactly_when genFileChecksums_sha (quiet serve_xyz)
           (update_a_bin BoolNull BoolNull)
           (holding (Raw (stored (StringValue "GET") BoolNull)))
           abc_on_disk eq_refl).
  split; reflexivity.
Defined.

(** X11 at work: a Read while the server cannot be reached keeps the
    resource in the state. *)
Lemma an_error_leaves_the_state_run :
  HasError
    (Diagnostics
       (returned (invoke genFileChecksums_sha offline (CallRead read_a_bin)
                    (holding (Raw (read_State read_a_bin))) abc_on_disk)))
  = true
  /\ State (returned (invoke genFileChecksums_sha offline (CallRead read_a_bin)
                        (holding (Raw (read_State read_a_bin))) abc_on_disk))
     = Some (Raw (read_State read_a_bin)).
Proof.
  assert (Herr : HasError
    (Diagnostics
       (returned (invoke genFileChecksums_sha offline (CallRead read_a_bin)
                    (holding (Raw (read_State read_a_bin))) abc_on_disk)))
  = true) by (vm_compute; reflexivity).
  split; [ exact Herr | ].
  exact (an_error_leaves_the_state genFileChecksums_sha offline
           (CallRead read_a_bin) (holding (Raw (read_State read_a_bin)))
           abc_on_disk Herr).
Defined.

(** X13 at work on the Create of abc. *)
Lemma persisted_checksums_are_of_the_file_run :
  let out := invoke genFileChecksums_sha (quiet serve_abc)
               (CallCreate (create_a_bin (StringValue "GET"))) fresh ∅ in
  fetches (events out) = true
  /\ HasError (Diagnostics (returned out)) = false
  /\ State (returned out) = Some (Raw (stored (StringValue "GET") BoolNull))
  /\ exists bs,
      files_after out !! "/tmp/out/a.bin" = Some bs
      /\ Raw (stored (StringValue "GET") BoolNull)
         = with_checksums (Raw (planned (StringValue "GET") BoolNull))
             (genFileChecksums_sha bs).
Proof.
  intros out.
  assert (Hfetch : fetches (events out) = true) by (vm_compute; reflexivity).
  assert (Hok : HasError (Diagnostics (returned out)) = false)
    by (vm_compute; reflexivity).
  assert (Hstate : State (returned out)
                   = Some (Raw (stored (StringValue "GET") BoolNull)))
    by (vm_compute; reflexivity).
  split; [ exact Hfetch | ]. split; [ exact Hok | ]. split; [ exact Hstate | ].
  exact (persisted_checksums_are_of_the_file genFileChecksums_sha
           (quiet serve_abc) (CallCreate (create_a_bin (StringValue "GET")))
           fresh ∅ _ Hfetch Hok Hstate).
Defined.

(** X12 at work. *)
Lemma Read_after_Create_changes_nothing_run :
  decodes (CallCreate (create_a_bin (StringValue "GET"))) fresh
  /\ exists m,
      State (returned (Create genFileChecksums_sha (quiet serve_abc)
                         (create_a_bin (StringValue "GET")) fresh ∅))
      = Some m
      /\ returned
           (Read genFileChecksums_sha (quiet serve_abc)
              {| read_State := {| Raw := m; GetDiags := [] |} |} (holding m)
              (files_after (Create genFileChecksums_sha (quiet serve_abc)
                              (create_a_bin (StringValue "GET")) fresh ∅)))
         = holding m.
Proof.
  split; [ reflexivity | ].
  destruct (Read_after_Create_changes_nothing genFileChecksums_sha
              (quiet serve_abc) (create_a_bin (StringValue "GET")) ∅
              (list_byte_of_string "abc") eq_refl fetch_abc)
    as (m & Hstate & Hread & _).
  exists m. split; [ exact Hstate | exact Hread ].
Defined.

(** X16 at work. *)
Lemma Delete_after_Create_restores_the_files_run :
  decodes (CallCreate (create_a_bin (StringValue "GET"))) fresh
  /\ (∅ : gmap string (list Byte.byte)) !! "/tmp/out/a.bin" = None
  /\ Remove_err (quiet serve_abc) "/tmp/out/a.bin" = None
  /\ exists m,
      State (returned (Create genFileChecksums_sha (quiet serve_abc)
                         (create_a_bin (StringValue "GET")) fresh ∅))
      = Some m
      /\ files_after
           (Delete (quiet serve_abc)
              {| delete_State := {| Raw := m; GetDiags := [] |} |} fresh
              (files_after (Create genFileChecksums_sha (quiet serve_abc)
                              (create_a_bin (StringValue "GET")) fresh ∅)))
         = ∅.
Proof.
  split; [ reflexivity | ]. split; [ reflexivity | ]. split; [ reflexivity | ].
  exact (Delete_after_Create_restores_the_files genFileChecksums_sha
           (quiet serve_abc) (create_a_bin (StringValue "GET")) ∅
           (list_byte_of_string "abc") fresh eq_refl fetch_abc
           eq_refl eq_refl).
Defined.

(** The request of [create_with_token] is sent. *)
Lemma token_request_is_sent :
  In (EvDo token_request (Ok abc_answer))
     (events (invoke genFileChecksums_sha (quiet serve_abc)
                (CallCreate create_with_token) fresh ∅)).
Proof. vm_compute. right. left. reflexivity. Defined.

(** X9 at work: the one header sent is the string element. *)
Lemma sent_headers_are_string_elements_run :
  In (EvDo token_request (Ok abc_answer))
     (events (invoke genFileChecksums_sha (quiet serve_abc)
                (CallCreate create_with_token) fresh ∅))
  /\ req_Header token_request !! "X-Token" = Some "t0ken"
  /\ exists k s,
      CanonicalMIMEHeaderKey (quiet serve_abc) k = "X-Token"
      /\ Elements (Headers (wanted (CallCreate create_with_token))) !! k
         = Some (AttrString s)
      /\ "t0ken" = ValueString s.
Proof.
  split; [ exact token_request_is_sent | ].
  assert (Hname : req_Header token_request !! "X-Token" = Some "t0ken")
    by (vm_compute; reflexivity).
  split; [ exact Hname | ].
  exact (sent_headers_are_string_elements genFileChecksums_sha
           (quiet serve_abc) (CallCreate create_with_token) fresh ∅
           token_request (Ok abc_answer) "X-Token" "t0ken"
           token_request_is_sent Hname).
Defined.

(** X10 at work: the string element is in the request. *)
Lemma string_elements_are_sent_run :
  Elements (Headers (wanted (CallCreate create_with_token))) !! "X-Token"
  = Some (AttrString (StringValue "t0ken"))
  /\ req_Header token_request
       !! CanonicalMIMEHeaderKey (quiet serve_abc) "X-Token"
     = Some (ValueString (StringValue "t0ken")).
Proof.
  assert (Hk : Elements (Headers (wanted (CallCreate create_with_token)))
                 !! "X-Token"
               = Some (AttrString (StringValue "t0ken")))
    by (vm_compute; reflexivity).
  split; [ exact Hk | ].
  exact (string_elements_are_sent genFileChecksums_sha (quiet serve_abc)
           (CallCreate create_with_token) fresh ∅
           token_request (Ok abc_answer) "X-Token" (StringValue "t0ken")
           (fun k1 k2 _ _ _ _ Hcanon => Hcanon)
           token_request_is_sent Hk).
Defined.

(** X15 at work: POST is admitted and used as it is. *)
Lemma an_admitted_method_is_used_as_planned_run :
  attribute "method" = Some method_attribute
  /\ admits method_attribute (StringValue "POST") = true
  /\ resolve_method (quiet serve_abc)
       (planned_value method_attribute (StringValue "POST"))
     = "POST".
Proof.
  split; [ reflexivity | ]. split; [ reflexivity | ].
  exact (proj1 (an_admitted_method_is_used_as_planned (quiet serve_abc)
                  method_attribute (StringValue "POST") eq_refl eq_refl
                  ltac:(discriminate))).
Defined.

(** A plan that decoding rejects. *)
Lemma undecoded_plan_has_an_error :
  HasError
    (Diagnostics fresh
     ++ decoding
          (CallCreate
             {| create_Plan :=
                  {| Raw := Raw (planned (StringValue "GET") BoolNull);
                     GetDiags := [{| severity := SeverityError;
                                     summary := "Value Conversion Error";
                                     detail := "url" |}] |} |}))
  = true.
Proof. reflexivity. Defined.

(** X18 at work: nothing is fetched for a plan that decoding rejects. *)
Lemma a_request_that_does_not_decode_does_nothing_run :
  let c := CallCreate
             {| create_Plan :=
                  {| Raw := Raw (planned (StringValue "GET") BoolNull);
                     GetDiags := [{| severity := SeverityError;
                                     summary := "Value Conversion Error";
                                     detail := "url" |}] |} |} in
  HasError (Diagnostics fresh ++ decoding c) = true
  /\ events (invoke genFileChecksums_sha (quiet serve_abc) c fresh ∅) = []
  /\ State (returned (invoke genFileChecksums_sha (quiet serve_abc) c fresh ∅))
     = None.
Proof.
  intros c. split; [ exact undecoded_plan_has_an_error | ].
  destruct (a_request_that_does_not_decode_does_nothing genFileChecksums_sha
              (quiet serve_abc) c fresh ∅ undecoded_plan_has_an_error)
    as (Hev & _ & Hstate & _).
  split; [ exact Hev | exact Hstate ].
Defined.

(** X19 at work on the request of [create_with_token]. *)
Lemma the_request_goes_to_the_url_run :
  In (EvDo token_request (Ok abc_answer))
     (events (invoke genFileChecksums_sha (quiet serve_abc)
                (CallCreate create_with_token) fresh ∅))
  /\ req_URL token_request
     = ValueString (URL (wanted (CallCreate create_with_token))).
Proof.
  split; [ exact token_request_is_sent | ].
  exact (the_request_goes_to_the_url genFileChecksums_sha (quiet serve_abc)
           (CallCreate create_with_token) fresh ∅ token_request
           (Ok abc_answer) token_request_is_sent).
Defined.

(** * Update under a forcing state, and the method the schema admits *)

Section Forcing.

Variable gen : list Byte.byte -> fileChecksums.
Variable E : Env.


(** C8: for every Create, Read or Update whose method attribute is one the
    schema admits (null or unknown, GET, POST) or is the empty string, every
    request sent uses GET when the attribute is null or empty, and the
    attribute's value otherwise. *)
Theorem request_method_is_as_given c resp fs :
  admits method_attribute (method_attr c) = true
  \/ ValueString (method_attr c) = "" ->
  sends_method gen E method_as_worded c resp fs.
Proof.
  intros Hok.
  assert (Heq : method_upper E (method_attr c)
                = method_as_worded (method_attr c)).
  { destruct Hok as [Hadmits | Hempty].
    - destruct (method_attr c) as [ | |s]; [ reflexivity | reflexivity | ].
      apply method_upper_on_valid.
      cbn in Hadmits. rewrite !orb_true_iff in Hadmits.
      destruct Hadmits as [H | [H | H]]; [ | | discriminate ];
        apply String.eqb_eq in H; cbn; tauto.
    - unfold method_upper, method_as_worded. rewrite Hempty.
      cbn. rewrite orb_true_r. reflexivity. }
  unfold sends_method. rewrite <- Heq.
  apply request_method_is_upper_cased.
Qed.

End Forcing.


(** C8 at work: POST is admitted and is the method of the request. *)
Lemma request_method_is_as_given_run :
  let c := CallCreate (create_a_bin (StringValue "POST")) in
  (admits method_attribute (method_attr c) = true
   \/ ValueString (method_attr c) = "")
  /\ sends_method genFileChecksums_sha (quiet serve_abc) method_as_worded
       c fresh ∅
  /\ map req_Method
       (requests (events (invoke genFileChecksums_sha (quiet serve_abc)
                            c fresh ∅)))
     = ["POST"].
Proof.
  intros c.
  assert (Hok : admits method_attribute (method_attr c) = true
                \/ ValueString (method_attr c) = "")
    by (left; reflexivity).
  split; [ exact Hok | ]. split.
  - exact (request_method_is_as_given genFileChecksums_sha (quiet serve_abc)
             c fresh ∅ Hok).
  - vm_compute. reflexivity.
Defined.
